(** * api2go: the resource dispatcher of [api.go], embedded in Rocq

    The development follows [src/api.go]: pagination parameters and the
    link planner, codec selection, the response helpers and the verb
    handlers.  Go values are modelled as the code has them: [uint64] as [Z]
    with its wrap-around written out, [map[string]T] as [gmap string T],
    [(T, error)] results as a three-way sum that also records a run-time
    panic, and the calls into the backend as transformers of an explicit
    world (the backend's store together with the Go heap). *)

From Stdlib Require Import ZArith String Ascii DecimalString DecimalN.
From stdpp Require Import base option list strings gmap.

Local Set Warnings "-register-all,-clear-no-such-hyp".
Local Open Scope string_scope.
Local Open Scope Z_scope.

(** ** Errors and results *)

(** Go [error] values as the dispatcher builds or inspects them:
    [errors.New]/[fmt.Errorf] strings, [*strconv.NumError], and the
    repository's [HTTPError] (which [handleError] inspects for its status). *)
Inductive error : Type :=
| errorString (text : string)
| numError (func num : string) (outOfRange : bool)
| httpError (cause : option error) (msg : string) (status : Z).

(** The outcome of a Go call: a value, a returned [error], or a panic. *)
Inductive res (A : Type) : Type :=
| Ret (a : A)
| Err (e : error)
| Panic.
Arguments Ret {A} a.
Arguments Err {A} e.
Arguments Panic {A}.

#[global] Instance res_ret : MRet res := fun A a => Ret a.
#[global] Instance res_bind : MBind res := fun A B f m =>
  match m with
  | Ret a => f a
  | Err e => Err e
  | Panic => Panic
  end.

(** ** strconv *)

Module strconv.

Definition wrap64 (x : Z) : Z := x mod 2 ^ 64.

Definition digitVal (c : ascii) : option Z :=
  let n := Z.of_N (N_of_ascii c) in
  if (48 <=? n) && (n <=? 57) then Some (n - 48) else None.

(** The digit loop of [ParseUint(s, 10, 64)]: [inl true] is a range
    error, [inl false] a syntax error, reported at the first offending
    byte as the library does. *)
Fixpoint parseDigits (acc : Z) (s : string) : bool + Z :=
  match s with
  | EmptyString => inr acc
  | String c rest =>
      match digitVal c with
      | None => inl false
      | Some d =>
          if 2 ^ 64 <=? acc * 10 + d then inl true
          else parseDigits (acc * 10 + d) rest
      end
  end.

Definition ParseUint (s : string) : res Z :=
  match s with
  | EmptyString => Err (numError "ParseUint" s false)
  | _ =>
      match parseDigits 0 s with
      | inr n => Ret n
      | inl range => Err (numError "ParseUint" s range)
      end
  end.

(** [FormatUint(n, 10)] *)
Definition FormatUint (n : Z) : string :=
  NilEmpty.string_of_uint (N.to_uint (Z.to_N n)).

(** [%d] of an [int] *)
Definition FormatInt (n : Z) : string :=
  if n <? 0 then "-" +:+ FormatUint (- n) else FormatUint n.

End strconv.

(** ** strings *)

Module strings.

(** [strings.Split(s, sep)] for a one-byte separator: the pieces between
    the separators, in order; an empty [s] gives one empty piece. *)
Fixpoint Split (s : string) (sep : ascii) : list string :=
  match s with
  | EmptyString => [EmptyString]
  | String c rest =>
      if decide (c = sep) then EmptyString :: Split rest sep
      else
        match Split rest sep with
        | piece :: pieces => String c piece :: pieces
        | [] => [String c EmptyString]
        end
  end.

(** [strings.Join(pieces, sep)] *)
Fixpoint Join (pieces : list string) (sep : ascii) : string :=
  match pieces with
  | [] => EmptyString
  | [p] => p
  | p :: ps => p +:+ String sep (Join ps sep)
  end.


End strings.

(** ** Requests *)

(** [url.Values] and [http.Header]: a key maps to its values in order of
    appearance.  Neither [net/url] nor [net/http] stores a key without a
    value, so an entry is its first value and the remaining ones. *)
Abbreviation Values := (gmap string (string * list string)).

(** [Values.Get] *)
Definition Get (v : Values) (key : string) : string :=
  match v !! key with
  | Some (first, _) => first
  | None => ""
  end.

(** [Values.Set] *)
Definition Set_ (v : Values) (key value : string) : Values :=
  <[key := (value, [])]> v.

(** The parts of [*http.Request] the dispatcher reads: [URL.Path],
    [URL.Query()], [Header], and what [ioutil.ReadAll(r.Body)] yields. *)
Record httpRequest : Type := {
  URLPath : string;
  URLQuery : Values;
  HTTPHeader : Values;
  HTTPBody : res string;
}.

(** ** Pagination *)

Record information : Type := {
  prefix : string;
  baseURL : string;
}.

Definition GetBaseURL (i : information) : string := baseURL i.
Definition GetPrefix (i : information) : string := prefix i.

Record paginationQueryParams : Type := {
  p_number : string;
  p_size : string;
  p_offset : string;
  p_limit : string;
}.

Definition newPaginationQueryParams (r : httpRequest) : paginationQueryParams :=
  let queryParams := URLQuery r in
  {| p_number := Get queryParams "page[number]";
     p_size := Get queryParams "page[size]";
     p_offset := Get queryParams "page[offset]";
     p_limit := Get queryParams "page[limit]" |}.

Definition isValid (p : paginationQueryParams) : bool :=
  if bool_decide (p_number p = "" ∧ p_size p = "" ∧ p_offset p = "" ∧ p_limit p = "")
  then false
  else if bool_decide (p_number p ≠ "" ∧ p_size p ≠ "" ∧ p_offset p = "" ∧ p_limit p = "")
  then true
  else if bool_decide (p_number p = "" ∧ p_size p = "" ∧ p_offset p ≠ "" ∧ p_limit p ≠ "")
  then true
  else false.

Section Links.

(** [url.QueryUnescape(params.Encode())] with its error dropped, as
    [getLinks] uses it: the rendering of a query is the library's. *)
Variable encodeQuery : Values → string.

Import strconv.

Definition getLinks (p : paginationQueryParams) (r : httpRequest) (count : Z)
    (info : information) : res (gmap string string) :=
  let result : gmap string string := ∅ in
  let params := URLQuery r in
  let prefix := if decide (GetBaseURL info ≠ "") then GetBaseURL info else "" in
  let requestURL := prefix +:+ URLPath r in
  let link (params : Values) := requestURL +:+ "?" +:+ encodeQuery params in
  if decide (p_number p ≠ "") then
    (* we have number & size params *)
    number ← ParseUint (p_number p);
    let '(params, result) :=
      if decide (p_number p ≠ "1") then
        let params := Set_ params "page[number]" "1" in
        let result := <["first" := link params]> result in
        let params := Set_ params "page[number]" (FormatUint (wrap64 (number - 1))) in
        let result := <["prev" := link params]> result in
        (params, result)
      else (params, result) in
    (* calculate last page number *)
    size ← ParseUint (p_size p);
    if decide (size = 0) then Panic
    else
      let totalPages := wrap64 count / size in
      let totalPages :=
        if decide (wrap64 count mod size ≠ 0) then wrap64 (totalPages + 1)
        else totalPages in
      if decide (number ≠ totalPages) then
        let params := Set_ params "page[number]" (FormatUint (wrap64 (number + 1))) in
        let result := <["next" := link params]> result in
        let params := Set_ params "page[number]" (FormatUint totalPages) in
        let result := <["last" := link params]> result in
        Ret result
      else Ret result
  else
    (* we have offset & limit params *)
    offset ← ParseUint (p_offset p);
    limit ← ParseUint (p_limit p);
    let '(params, result) :=
      if decide (p_offset p ≠ "0") then
        let params := Set_ params "page[offset]" "0" in
        let result := <["first" := link params]> result in
        let prevOffset := if decide (offset < limit) then 0 else offset - limit in
        let params := Set_ params "page[offset]" (FormatUint prevOffset) in
        let result := <["prev" := link params]> result in
        (params, result)
      else (params, result) in
    (* check if there are more entries to be loaded *)
    if decide (wrap64 (offset + limit) < wrap64 count) then
      let params := Set_ params "page[offset]" (FormatUint (wrap64 (offset + limit))) in
      let result := <["next" := link params]> result in
      let params := Set_ params "page[offset]" (FormatUint (wrap64 (wrap64 count - limit))) in
      let result := <["last" := link params]> result in
      Ret result
    else Ret result.

End Links.

(** ** Dynamic values, codecs and the response writer *)

(** What an [interface{}] holds in a decoded or outgoing document. *)
Inductive value : Type :=
| VNil
| VBool (b : bool)
| VNumber (literal : string)
| VString (s : string)
| VArray (items : list value)
| VObject (fields : gmap string value)
| VStringMap (entries : gmap string string).

(** The [ContentMarshaler] interface. [Unmarshal] fills a fresh
    [map[string]interface{}]. *)
Record ContentMarshaler : Type := {
  Marshal : value → res string;
  Unmarshal : string → res (gmap string value);
  MarshalError : error → string;
}.

Definition defaultContentTypHeader : string := "application/vnd.api+json".

(** [http.ResponseWriter] with the semantics of [net/http]: the first
    [WriteHeader] fixes the status, a [Write] before any [WriteHeader]
    sends 200, and a status without a body drops what is written. *)
Record ResponseWriter : Type := {
  w_header : Values;
  w_status : option Z;
  w_body : string;
}.

Definition newResponseWriter : ResponseWriter :=
  {| w_header := ∅; w_status := None; w_body := "" |}.

Definition HeaderSet (key val : string) (w : ResponseWriter) : ResponseWriter :=
  {| w_header := Set_ (w_header w) key val; w_status := w_status w; w_body := w_body w |}.

Definition WriteHeader (status : Z) (w : ResponseWriter) : ResponseWriter :=
  match w_status w with
  | Some _ => w
  | None => {| w_header := w_header w; w_status := Some status; w_body := w_body w |}
  end.

Definition bodyAllowedForStatus (status : Z) : bool :=
  if (100 <=? status) && (status <=? 199) then false
  else if status =? 204 then false
  else if status =? 304 then false
  else true.

Definition Write (data : string) (w : ResponseWriter) : ResponseWriter :=
  let w := WriteHeader 200 w in
  match w_status w with
  | Some status =>
      if bodyAllowedForStatus status
      then {| w_header := w_header w; w_status := w_status w; w_body := w_body w +:+ data |}
      else w
  | None => w
  end.

Definition writeResult (data : string) (status : Z) (contentType : string)
    (w : ResponseWriter) : ResponseWriter :=
  let w := HeaderSet "Content-Type" contentType w in
  let w := WriteHeader status w in
  Write data w.

(** [NewHTTPError] of the repository's error file, as [error_test.go]
    calls it and [handleError] reads it back. *)
Definition NewHTTPError (cause : option error) (msg : string) (status : Z) : error :=
  httpError cause msg status.

(** ** reflect *)

Inductive Kind : Type := Struct | Ptr | OtherKind.

Inductive rtype : Type :=
| TStruct (name : string)
| TPtr (elem : rtype)
| TOther (name : string).

#[global] Instance rtype_eq_dec : EqDecision rtype.
Proof. solve_decision. Defined.
#[global] Instance Kind_eq_dec : EqDecision Kind.
Proof. solve_decision. Defined.

Definition TypeKind (t : rtype) : Kind :=
  match t with
  | TStruct _ => Struct
  | TPtr _ => Ptr
  | TOther _ => OtherKind
  end.

Definition TypeElem (t : rtype) : rtype :=
  match t with
  | TPtr e => e
  | _ => t
  end.

(** ** The backend and the jsonapi package, as the dispatcher sees them *)

(** [jsonapi.Reference] *)
Record Reference : Type := {
  RefType : string;
  RefName : string;
}.

(** [httprouter.Params] *)
Definition Params := list (string * string).

Fixpoint ByName (ps : Params) (name : string) : string :=
  match ps with
  | [] => ""
  | (key, val) :: rest => if decide (key = name) then val else ByName rest name
  end.

(** The api2go [Request] handed to the backend. *)
Record Request : Type := {
  PlainRequest : httpRequest;
  QueryParams : gmap string (list string);
  Header : Values;
}.

Definition buildRequest (r : httpRequest) : Request :=
  let params := (λ values : string * list string, strings.Split values.1 ",") <$> URLQuery r in
  {| PlainRequest := r; QueryParams := params; Header := HTTPHeader r |}.

Section Dispatcher.

(** [World] is everything a call can change outside the dispatcher: the
    backend's store and the heap behind the objects it hands out.  [Obj]
    is a non-nil dynamic value; a nil [interface{}] is [None]. *)
Context {World Obj : Type}.

(** The [Responder] interface, as the [response] struct implements it. *)
Record Responder : Type := {
  Metadata : gmap string value;
  Result : option Obj;
  StatusCode : Z;
}.

(** A call that may change the world and yields [(T, error)]. *)
Definition call (A : Type) : Type := World → res A * World.

(** The [CRUD] interface with the optional [FindAll] and
    [PaginatedFindAll], [None] when the type assertion fails. *)
Record CRUD : Type := {
  FindOne : string → Request → call Responder;
  Create : Obj → Request → call Responder;
  Delete : string → Request → call Responder;
  Update : Obj → Request → call Responder;
  asFindAll : option (Request → call Responder);
  asPaginatedFindAll : option (Request → call (Z * Responder));
}.

(** [jsonapi.EditToManyRelations]: both methods edit their receiver in
    place. *)
Record EditToManyRelations : Type := {
  AddToManyIDs : string → list string → World → World;
  DeleteToManyIDs : string → list string → World → World;
}.

(** What the dispatcher imports: [reflect], the [jsonapi] package,
    [net/url], [gddo/httputil] and the default codec. *)
Class Env : Type := {
  (** [url.QueryUnescape(params.Encode())] *)
  encodeQuery : Values → string;
  (** [httputil.NegotiateContentType] *)
  NegotiateContentType : httpRequest → list string → string → string;
  (** the order in which [range] visits the registered content types *)
  rangeKeys : gmap string ContentMarshaler → list string;
  JSONContentMarshaler : ContentMarshaler;
  (** [reflect.TypeOf] of a non-nil value *)
  TypeOf : Obj → rtype;
  (** [reflect.New(t)] followed by [ptr.Elem().Set(v)] *)
  newPointerTo : Obj → World → Obj * World;
  (** [reflect.ValueOf(p).Elem().Interface()] *)
  elemOf : Obj → World → Obj;
  (** [v.(jsonapi.MarshalIdentifier)], giving [GetID] *)
  asMarshalIdentifier : Obj → option (World → string);
  (** [v.(jsonapi.EditToManyRelations)] *)
  asEditToManyRelations : Obj → option EditToManyRelations;
  MarshalWithURLs : option Obj → information → World → res (gmap string value);
  UnmarshalInto : gmap string value → rtype → list Obj → call (list Obj);
  UnmarshalRelationshipsData : Obj → string → value → call unit;
}.

Context `{env : Env}.

Record resource : Type := {
  resourceType : rtype;
  source : CRUD;
  name : string;
  marshalers : gmap string ContentMarshaler;
}.

(** *** The handler monad: world and response writer threaded through,
    a returned [error] or a panic ending the handler. *)
Record state : Type := {
  world : World;
  writer : ResponseWriter;
}.

Definition M (A : Type) : Type := state → res A * state.

#[global] Instance M_ret : MRet M := fun A a s => (Ret a, s).
#[global] Instance M_bind : MBind M := fun A B f m s =>
  match m s with
  | (Ret a, s') => f a s'
  | (Err e, s') => (Err e, s')
  | (Panic, s') => (Panic, s')
  end.

Definition throw {A} (e : error) : M A := fun s => (Err e, s).
Definition panic {A} : M A := fun s => (Panic, s).

(** [x, err := f(...); if err != nil { return err }] *)
Definition try {A} (f : call A) : M A := fun s =>
  let '(r, w') := f (world s) in
  (r, {| world := w'; writer := writer s |}).

(** [_, err = f(...)] with the error kept as a value *)
Definition errorOf {A} (f : call A) : M (option error) := fun s =>
  let '(r, w') := f (world s) in
  let s' := {| world := w'; writer := writer s |} in
  match r with
  | Ret _ => (Ret None, s')
  | Err e => (Ret (Some e), s')
  | Panic => (Panic, s')
  end.

Definition lift {A} (r : res A) : M A := fun s => (r, s).
Definition readWorld {A} (f : World → A) : M A := fun s => (Ret (f (world s)), s).
Definition onWorld (f : World → World) : M unit := fun s =>
  (Ret tt, {| world := f (world s); writer := writer s |}).
Definition onWriter (f : ResponseWriter → ResponseWriter) : M unit := fun s =>
  (Ret tt, {| world := world s; writer := f (writer s) |}).

(** [return err] at the end of a handler *)
Definition returnErr (err : option error) : M unit :=
  match err with
  | Some e => throw e
  | None => mret tt
  end.

(** *** Codec selection and the response helpers *)

Definition selectContentMarshaler (r : httpRequest)
    (marshalers : gmap string ContentMarshaler) : ContentMarshaler * string :=
  let '(marshaler, contentType) :=
    match HTTPHeader r !! "Accept" with
    | Some _ =>
        let contentTypes := rangeKeys marshalers in
        let contentType :=
          NegotiateContentType r contentTypes defaultContentTypHeader in
        (marshalers !! contentType, contentType)
    | None =>
        match HTTPHeader r !! "Content-Type" with
        | Some contentTypes => (marshalers !! contentTypes.1, contentTypes.1)
        | None => (None, "")
        end
    end in
  match marshaler with
  | Some m => (m, contentType)
  | None => (JSONContentMarshaler, defaultContentTypHeader)
  end.

Definition unmarshalRequest (r : httpRequest)
    (marshalers : gmap string ContentMarshaler) : M (gmap string value) :=
  data ← lift (HTTPBody r);
  let '(marshaler, _) := selectContentMarshaler r marshalers in
  lift (Unmarshal marshaler data).

Definition marshalResponse (resp : value) (status : Z) (r : httpRequest)
    (marshalers : gmap string ContentMarshaler) : M unit :=
  let '(marshaler, contentType) := selectContentMarshaler r marshalers in
  result ← lift (Marshal marshaler resp);
  onWriter (writeResult result status contentType).

Definition handleError (err : error) (r : httpRequest)
    (marshalers : gmap string ContentMarshaler) : M unit :=
  let '(marshaler, contentType) := selectContentMarshaler r marshalers in
  match err with
  | httpError _ _ status =>
      onWriter (writeResult (MarshalError marshaler err) status contentType)
  | _ =>
      onWriter (writeResult (MarshalError marshaler err) 500 contentType)
  end.

Definition respondWith (obj : Responder) (info : information) (status : Z)
    (r : httpRequest) (marshalers : gmap string ContentMarshaler) : M unit :=
  data ← (fun s => (MarshalWithURLs (Result obj) info (world s), s));
  let meta := Metadata obj in
  let data := if decide (0 < size meta)%nat then <["meta" := VObject meta]> data else data in
  marshalResponse (VObject data) status r marshalers.

Definition respondWithPagination (obj : Responder) (info : information)
    (status : Z) (links : gmap string string) (r : httpRequest)
    (marshalers : gmap string ContentMarshaler) : M unit :=
  data ← (fun s => (MarshalWithURLs (Result obj) info (world s), s));
  let data := <["links" := VStringMap links]> data in
  let meta := Metadata obj in
  let data := if decide (0 < size meta)%nat then <["meta" := VObject meta]> data else data in
  marshalResponse (VObject data) status r marshalers.

(** The closure every route registers in [addResource]:
    [err := handler(...); if err != nil { handleError(err, w, r, marshalers) }]. *)
Definition serve (handler : M unit) (r : httpRequest)
    (marshalers : gmap string ContentMarshaler) : M unit := fun s =>
  match handler s with
  | (Err e, s') => handleError e r marshalers s'
  | other => other
  end.

(** *** The verb handlers *)

Import strconv.

Definition handleIndex (rs : resource) (r : httpRequest) (info : information)
    : M unit :=
  let pagination := newPaginationQueryParams r in
  if isValid pagination then
    match asPaginatedFindAll (source rs) with
    | None =>
        throw (NewHTTPError None
          "Resource does not implement the PaginatedFindAll interface" 404)
    | Some paginatedFindAll =>
        '(count, response) ← try (paginatedFindAll (buildRequest r));
        paginationLinks ← lift (getLinks encodeQuery pagination r count info);
        respondWithPagination response info 200 paginationLinks r (marshalers rs)
    end
  else
    match asFindAll (source rs) with
    | None =>
        throw (NewHTTPError None
          "Resource does not implement the FindAll interface" 404)
    | Some findAll =>
        response ← try (findAll (buildRequest r));
        respondWith response info 200 r (marshalers rs)
    end.

Definition structTypeOf (rs : resource) : rtype :=
  if decide (TypeKind (resourceType rs) = Ptr) then TypeElem (resourceType rs)
  else resourceType rs.

Definition handleCreate (rs : resource) (r : httpRequest) (prefix : string)
    (info : information) : M unit :=
  ctx ← unmarshalRequest r (marshalers rs);
  let structType := structTypeOf rs in
  newObjs ← try (UnmarshalInto ctx structType []);
  match newObjs with
  | [newObj] =>
      response ← try (Create (source rs) newObj (buildRequest r));
      match Result response ≫= asMarshalIdentifier with
      | None =>
          throw (errorString
            ("Expected one newly created object by resource " +:+ name rs))
      | Some GetID =>
          id ← readWorld GetID;
          _ ← onWriter (HeaderSet "Location" (prefix +:+ name rs +:+ "/" +:+ id));
          (* handle 200 status codes *)
          if decide (StatusCode response = 201) then
            respondWith response info 201 r (marshalers rs)
          else if decide (StatusCode response = 204) then
            onWriter (WriteHeader (StatusCode response))
          else if decide (StatusCode response = 202) then
            onWriter (WriteHeader (StatusCode response))
          else
            throw (errorString
              ("invalid status code " +:+ FormatInt (StatusCode response)
               +:+ " from resource " +:+ name rs +:+ " for method Create"))
      end
  | _ => throw (errorString "expected one object in POST")
  end.

Definition forbidden (msg : string) : error :=
  NewHTTPError (Some (errorString "Forbidden")) msg 403.

Definition handleUpdate (rs : resource) (r : httpRequest) (ps : Params)
    : M unit :=
  obj ← try (FindOne (source rs) (ByName ps "id") (buildRequest r));
  ctx ← unmarshalRequest r (marshalers rs);
  match ctx !! "data" with
  | None => throw (forbidden "missing mandatory data key.")
  | Some (VObject check) =>
      if decide (check !! "id" = None) then
        throw (forbidden "missing mandatory id key.")
      else if decide (check !! "type" = None) then
        throw (forbidden "missing mandatory type key.")
      else
        match Result obj with
        | None => panic
        | Some stored =>
            if decide (TypeOf stored ≠ resourceType rs) then panic
            else
              updatingObjs ← try (UnmarshalInto ctx (structTypeOf rs) [stored]);
              match updatingObjs with
              | [updatingObj] =>
                  response ← try (Update (source rs) updatingObj (buildRequest r));
                  if decide (StatusCode response = 200) then
                    match Result response with
                    | None =>
                        internalResponse ←
                          try (FindOne (source rs) (ByName ps "id") (buildRequest r));
                        match Result internalResponse with
                        | None =>
                            throw (errorString
                              ("Expected FindOne to return one object of resource "
                               +:+ name rs))
                        | Some _ =>
                            respondWith internalResponse
                              {| prefix := ""; baseURL := "" |} 200 r (marshalers rs)
                        end
                    | Some _ =>
                        respondWith response
                          {| prefix := ""; baseURL := "" |} 200 r (marshalers rs)
                    end
                  else if decide (StatusCode response = 202) then
                    onWriter (WriteHeader 202)
                  else if decide (StatusCode response = 204) then
                    onWriter (WriteHeader 204)
                  else
                    throw (errorString
                      ("invalid status code " +:+ FormatInt (StatusCode response)
                       +:+ " from resource " +:+ name rs +:+ " for method Update"))
              | _ => throw (errorString "expected one object")
              end
        end
  | Some _ => throw (forbidden "data must contain an object.")
  end.

(** returns a pointer to an interface{} struct *)
Definition getPointerToStruct (oldObj : Obj) : M Obj := fun s =>
  let '(ptr, w') := newPointerTo oldObj (world s) in
  (Ret ptr, {| world := w'; writer := writer s |}).

(** [resType := reflect.TypeOf(response.Result()).Kind()] and the choice
    of [editObj] that follows it in the three relationship handlers. *)
Definition editObjOf (response : Responder) : M (Kind * Obj) :=
  match Result response with
  | None => panic
  | Some result =>
      let resType := TypeKind (TypeOf result) in
      if decide (resType = Struct) then
        editObj ← getPointerToStruct result;
        mret (resType, editObj)
      else mret (resType, result)
  end.

(** [res.source.Update] on the edited object, by value for a struct. *)
Definition updateEdited (rs : resource) (r : httpRequest) (resType : Kind)
    (editObj : Obj) : M (option error) :=
  if decide (resType = Struct) then
    edited ← readWorld (elemOf editObj);
    errorOf (Update (source rs) edited (buildRequest r))
  else errorOf (Update (source rs) editObj (buildRequest r)).

(** the double-quote character of the two messages below *)
Definition dq : string := String "034"%char "".

Definition needData : error :=
  errorString ("Invalid object. Need a " +:+ dq +:+ "data" +:+ dq +:+ " object").

Definition handleReplaceRelation (rs : resource) (r : httpRequest)
    (ps : Params) (relation : Reference) : M unit :=
  response ← try (FindOne (source rs) (ByName ps "id") (buildRequest r));
  inc ← unmarshalRequest r (marshalers rs);
  match inc !! "data" with
  | None => throw needData
  | Some data =>
      '(resType, editObj) ← editObjOf response;
      _ ← try (UnmarshalRelationshipsData editObj (RefName relation) data);
      err ← updateEdited rs r resType editObj;
      _ ← onWriter (WriteHeader 204);
      returnErr err
  end.

(** The loop over the linkage entries of the add and delete handlers. *)
Fixpoint collectIDs (newRels : list value) (newIDs : list string)
    : res (list string) :=
  match newRels with
  | [] => Ret newIDs
  | newRel :: rest =>
      match newRel with
      | VObject casted =>
          match casted !! "id" with
          | Some (VString newID) => collectIDs rest (newIDs ++ [newID])
          | _ => Err (errorString "no id field found inside data object")
          end
      | _ => Err (errorString "entry in data object invalid")
      end
  end.

Definition needArray : error :=
  errorString
    ("Data must be an array with " +:+ dq +:+ "id" +:+ dq +:+ " and " +:+ dq +:+ "type"
     +:+ dq +:+ " field to add new to-many relationships").

Definition needEditToMany : error :=
  errorString "target struct must implement jsonapi.EditToManyRelations".

Definition handleAddToManyRelation (rs : resource) (r : httpRequest)
    (ps : Params) (relation : Reference) : M unit :=
  response ← try (FindOne (source rs) (ByName ps "id") (buildRequest r));
  inc ← unmarshalRequest r (marshalers rs);
  match inc !! "data" with
  | None => throw needData
  | Some (VArray newRels) =>
      newIDs ← lift (collectIDs newRels []);
      '(resType, editObj) ← editObjOf response;
      match asEditToManyRelations editObj with
      | None => throw needEditToMany
      | Some targetObj =>
          _ ← onWorld (AddToManyIDs targetObj (RefName relation) newIDs);
          err ← updateEdited rs r resType editObj;
          _ ← onWriter (WriteHeader 204);
          returnErr err
      end
  | Some _ => throw needArray
  end.

Definition handleDeleteToManyRelation (rs : resource) (r : httpRequest)
    (ps : Params) (relation : Reference) : M unit :=
  response ← try (FindOne (source rs) (ByName ps "id") (buildRequest r));
  inc ← unmarshalRequest r (marshalers rs);
  match inc !! "data" with
  | None => throw needData
  | Some (VArray newRels) =>
      obsoleteIDs ← lift (collectIDs newRels []);
      '(resType, editObj) ← editObjOf response;
      match asEditToManyRelations editObj with
      | None => throw needEditToMany
      | Some targetObj =>
          _ ← onWorld (DeleteToManyIDs targetObj (RefName relation) obsoleteIDs);
          err ← updateEdited rs r resType editObj;
          _ ← onWriter (WriteHeader 204);
          returnErr err
      end
  | Some _ => throw needArray
  end.

End Dispatcher.

(** ** The remaining handlers and the route table *)

(** The [Error] struct, with the fields [error_test.go] fills. *)
Record Error_ : Type := {
  ErrID : string;
  ErrHref : string;
  ErrStatus : string;
  ErrCode : string;
  ErrTitle : string;
  ErrDetail : string;
  ErrPath : string;
}.

(** [string(n)] of an integer: the UTF-8 bytes of the code point [n], and
    those of U+FFFD outside the code points. *)
Definition byteOf (n : Z) : ascii := ascii_of_N (Z.to_N n).

Definition stringOfInt (n : Z) : string :=
  if (n <? 0) || (1114111 <? n) || ((55296 <=? n) && (n <=? 57343)) then
    String (byteOf 239) (String (byteOf 191) (String (byteOf 189) ""))
  else if n <? 128 then String (byteOf n) ""
  else if n <? 2048 then
    String (byteOf (Z.lor 192 (Z.shiftr n 6)))
      (String (byteOf (Z.lor 128 (Z.land n 63))) "")
  else if n <? 65536 then
    String (byteOf (Z.lor 224 (Z.shiftr n 12)))
      (String (byteOf (Z.lor 128 (Z.land (Z.shiftr n 6) 63)))
         (String (byteOf (Z.lor 128 (Z.land n 63))) ""))
  else
    String (byteOf (Z.lor 240 (Z.shiftr n 18)))
      (String (byteOf (Z.lor 128 (Z.land (Z.shiftr n 12) 63)))
         (String (byteOf (Z.lor 128 (Z.land (Z.shiftr n 6) 63)))
            (String (byteOf (Z.lor 128 (Z.land n 63))) ""))).

Section OtherHandlers.

Context {World Obj : Type} `{env : @Env World Obj}.

Import strconv.

(** An [Error] struct held in an [interface{}]. *)
Variable errorValue : Error_ → Obj.

Definition notAllowedHandler_ServeHTTP (marshalers : gmap string ContentMarshaler)
    (r : httpRequest) : M unit :=
  let err := NewHTTPError None "Method Not Allowed" 405 in
  _ ← onWriter (WriteHeader 405);
  handleError err r marshalers.

Definition handleRead (rs : @resource World Obj) (r : httpRequest) (ps : Params)
    (info : information) : M unit :=
  let id := ByName ps "id" in
  response ← try (FindOne (source rs) id (buildRequest r));
  respondWith response info 200 r (marshalers rs).

Definition handleDelete (rs : @resource World Obj) (r : httpRequest) (ps : Params) : M unit :=
  response ← try (Delete (source rs) (ByName ps "id") (buildRequest r));
  if decide (StatusCode response = 200) then
    let data : gmap string value := {[ "meta" := VObject (Metadata response) ]} in
    marshalResponse (VObject data) 200 r (marshalers rs)
  else if decide (StatusCode response = 202) then onWriter (WriteHeader 202)
  else if decide (StatusCode response = 204) then onWriter (WriteHeader 204)
  else
    throw (errorString
      ("invalid status code " +:+ FormatInt (StatusCode response)
       +:+ " from resource " +:+ name rs +:+ " for method Delete")).

(** The request [handleLinked] hands to the linked resource: the two
    entries it writes into [request.QueryParams]. *)
Definition linkedRequest (rs : @resource World Obj) (r : httpRequest) (id : string)
    (linked : Reference) : Request :=
  let request := buildRequest r in
  {| PlainRequest := PlainRequest request;
     QueryParams :=
       <[name rs +:+ "Name" := [RefName linked]]>
         (<[name rs +:+ "ID" := [id]]> (QueryParams request));
     Header := Header request |}.

(** try to find the referenced resource and call the findAll Method with
    referencing resource id as param *)
Fixpoint handleLinkedIn (resources : list (@resource World Obj)) (rs : @resource World Obj)
    (r : httpRequest) (ps : Params) (linked : Reference) (info : information)
    : M unit :=
  let id := ByName ps "id" in
  match resources with
  | resource :: rest =>
      if decide (name resource = RefType linked) then
        let request := linkedRequest rs r id linked in
        (* check for pagination, otherwise normal FindAll *)
        let pagination := newPaginationQueryParams r in
        if isValid pagination then
          match asPaginatedFindAll (source resource) with
          | None =>
              throw (NewHTTPError None
                "Resource does not implement the PaginatedFindAll interface" 404)
          | Some paginatedFindAll =>
              '(count, response) ← try (paginatedFindAll request);
              paginationLinks ← lift (getLinks encodeQuery pagination r count info);
              respondWithPagination response info 200 paginationLinks r (marshalers rs)
          end
        else
          match asFindAll (source resource) with
          | None =>
              throw (NewHTTPError None
                "Resource does not implement the FindAll interface" 404)
          | Some findAll =>
              obj ← try (findAll request);
              respondWith obj info 200 r (marshalers rs)
          end
      else handleLinkedIn rest rs r ps linked info
  | [] =>
      let err :=
        {| ErrID := ""; ErrHref := ""; ErrStatus := stringOfInt 404; ErrCode := "";
           ErrTitle := "Not Found";
           ErrDetail :=
             "No resource handler is registered to handle the linked resource "
             +:+ RefName linked;
           ErrPath := "" |} in
      let answ :=
        {| Metadata := ∅; Result := Some (errorValue err); StatusCode := 404 |} in
      respondWith answ info 404 r (marshalers rs)
  end.

(** [handleLinked], [api.resources] being the resources registered so far *)
Definition handleLinked (resources : list (@resource World Obj)) (rs : @resource World Obj)
    (r : httpRequest) (ps : Params) (linked : Reference) (info : information)
    : M unit :=
  handleLinkedIn resources rs r ps linked info.

End OtherHandlers.

(** What a registered route runs: the OPTIONS answers and the handlers of
    [addResource]'s closures, the relationship ones with their relation. *)
Inductive routeHandler : Type :=
| optionsResource
| optionsItem
| runIndex
| runRead
| runReadRelation (relation : Reference)
| runLinked (relation : Reference)
| runReplaceRelation (relation : Reference)
| runAddToManyRelation (relation : Reference)
| runDeleteToManyRelation (relation : Reference)
| runCreate
| runDelete
| runUpdate.

(** A call of [api.router.Handle] (or of [GET], [POST], [PATCH], [DELETE]). *)
Record route : Type := {
  routeMethod : string;
  routePath : string;
  routeHandler_ : routeHandler;
}.

(** [reflect.Type.Name]: a pointer type has no name. *)
Definition TypeName (t : rtype) : string :=
  match t with
  | TStruct name => name
  | TPtr _ => ""
  | TOther name => name
  end.

Section Routes.

Context {World Obj : Type} `{env : @Env World Obj}.

(** [jsonapi.Pluralize] and [jsonapi.Jsonify]; the type assertions to
    [jsonapi.EntityNamer] (giving [GetName]) and [jsonapi.MarshalReferences]
    (giving [GetReferences]); [reflect.New(t).Interface()]. *)
Variables Pluralize Jsonify : string → string.
Variable asEntityNamer : Obj → option string.
Variable asMarshalReferences : Obj → option (list Reference).
Variable reflectNew : rtype → Obj.

(** The part of [API] that [addResource] reads and extends. *)
Record API : Type := {
  router : list route;
  resources : list (@resource World Obj);
  apiPrefix : string;
}.

(** The routes of one relation, in the order of registration. *)
Definition relationRoutes (base : string) (ptrPrototype : Obj)
    (relation : Reference) : list route :=
  [ {| routeMethod := "GET";
       routePath := base +:+ "/:id/relationships/" +:+ RefName relation;
       routeHandler_ := runReadRelation relation |};
    {| routeMethod := "GET";
       routePath := base +:+ "/:id/" +:+ RefName relation;
       routeHandler_ := runLinked relation |};
    {| routeMethod := "PATCH";
       routePath := base +:+ "/:id/relationships/" +:+ RefName relation;
       routeHandler_ := runReplaceRelation relation |} ]
  ++
  (if decide (is_Some (asEditToManyRelations ptrPrototype)
              ∧ RefName relation = Pluralize (RefName relation))
   then
     (* generate additional routes to manipulate to-many relationships *)
     [ {| routeMethod := "POST";
          routePath := base +:+ "/:id/relationships/" +:+ RefName relation;
          routeHandler_ := runAddToManyRelation relation |};
       {| routeMethod := "DELETE";
          routePath := base +:+ "/:id/relationships/" +:+ RefName relation;
          routeHandler_ := runDeleteToManyRelation relation |} ]
   else [])%list.

(** The routes of one resource, in the order of registration. *)
Definition resourceRoutes (base : string) (prototype ptrPrototype : Obj)
    : list route :=
  ([ {| routeMethod := "OPTIONS"; routePath := base;
        routeHandler_ := optionsResource |};
     {| routeMethod := "OPTIONS"; routePath := base +:+ "/:id";
        routeHandler_ := optionsItem |};
     {| routeMethod := "GET"; routePath := base; routeHandler_ := runIndex |};
     {| routeMethod := "GET"; routePath := base +:+ "/:id";
        routeHandler_ := runRead |} ]
   ++
   (* generate all routes for linked relations if there are relations *)
   match asMarshalReferences prototype with
   | Some relations => relations ≫= relationRoutes base ptrPrototype
   | None => []
   end
   ++
   [ {| routeMethod := "POST"; routePath := base; routeHandler_ := runCreate |};
     {| routeMethod := "DELETE"; routePath := base +:+ "/:id";
        routeHandler_ := runDelete |};
     {| routeMethod := "PATCH"; routePath := base +:+ "/:id";
        routeHandler_ := runUpdate |} ])%list.

(** [httprouter]'s [Handle]: whether the router that holds the routes
    [registered] takes one more.  It panics when it does not: for a path
    already registered under the method, a path that does not begin with a
    slash, a wildcard in conflict with a route it holds. *)
Variable accepts : list route → route → bool.

(** The calls of [api.router.Handle], one after the other. *)
Fixpoint registerAll (registered new : list route) : res (list route) :=
  match new with
  | [] => Ret registered
  | rt :: rest =>
      if accepts registered rt then registerAll (registered ++ [rt])%list rest
      else Panic
  end.

(** One of the routes [new] is refused by the router that holds
    [registered] and the routes before it. *)
Definition refused (registered new : list route) : Prop :=
  ∃ done rt rest,
    new = (done ++ rt :: rest)%list ∧ accepts (registered ++ done)%list rt = false.

Definition addResource (api : API) (prototype : Obj) (source : @CRUD World Obj)
    (marshalers : gmap string ContentMarshaler) : res (API * @resource World Obj) :=
  let resourceType := TypeOf prototype in
  if decide (TypeKind resourceType ≠ Struct ∧ TypeKind resourceType ≠ Ptr) then Panic
  else
    let '(ptrPrototype, name) :=
      if decide (TypeKind resourceType = Struct)
      then (reflectNew resourceType, TypeName resourceType)
      else (prototype, TypeName (TypeElem resourceType)) in
    (* check if EntityNamer interface is implemented and use that as name *)
    let name :=
      match asEntityNamer prototype with
      | Some entityName => entityName
      | None => Jsonify (Pluralize name)
      end in
    let rs :=
      {| resourceType := resourceType; name := name; source := source;
         marshalers := marshalers |} in
    routes ← registerAll (router api)
                (resourceRoutes (apiPrefix api +:+ name) prototype ptrPrototype);
    Ret ({| router := routes;
            resources := (resources api ++ [rs])%list;
            apiPrefix := apiPrefix api |}, rs).

End Routes.

(** ** Vocabulary of the statements *)

Section LinkVocabulary.

Variable encodeQuery : Values → string.

(** The request's own URL with one query parameter rewritten. *)
Definition pageLink (info : information) (r : httpRequest) (key val : string)
    : string :=
  (GetBaseURL info +:+ URLPath r) +:+ "?" +:+ encodeQuery (Set_ (URLQuery r) key val).

(** ceil(count/size) *)
Definition ceilDiv (count size : Z) : Z := (count + size - 1) / size.

End LinkVocabulary.

(** A plain renderer of a query, to run the planner on concrete requests:
    [key=value] for the first value of each key, joined by [&]. *)
Definition plainEncode (v : Values) : string :=
  strings.Join ((λ kv : string * (string * list string), kv.1 +:+ "=" +:+ kv.2.1)
                  <$> map_to_list v) "&".

Definition indexRequest (query : list (string * string)) : httpRequest :=
  {| URLPath := "/posts";
     URLQuery := list_to_map ((λ kv : string * string, (kv.1, (kv.2, []))) <$> query);
     HTTPHeader := ∅;
     HTTPBody := Ret "" |}.

Definition noInfo : information := {| prefix := ""; baseURL := "" |}.

Definition page (number size : string) : httpRequest :=
  indexRequest [("page[number]", number); ("page[size]", size)].

Definition slice (offset limit : string) : httpRequest :=
  indexRequest [("page[offset]", offset); ("page[limit]", limit)].

Definition numberLink (r : httpRequest) (val : string) : option string :=
  Some (pageLink plainEncode noInfo r "page[number]" val).

Definition offsetLink (r : httpRequest) (val : string) : option string :=
  Some (pageLink plainEncode noInfo r "page[offset]" val).




(** The two strategies of the planner. *)
Definition numberAndSize (p : paginationQueryParams) : Prop :=
  p_number p ≠ "" ∧ p_size p ≠ "" ∧ p_offset p = "" ∧ p_limit p = "".

Definition offsetAndLimit (p : paginationQueryParams) : Prop :=
  p_number p = "" ∧ p_size p = "" ∧ p_offset p ≠ "" ∧ p_limit p ≠ "".

(** The status of the error document [handleError] writes for [e]. *)
Definition errorStatus (e : error) : Z :=
  match e with
  | httpError _ _ status => status
  | _ => 500
  end.

(** The document [respondWith] hands to the codec. *)
Definition withMeta (meta : gmap string value) (data : gmap string value)
    : gmap string value :=
  if decide (0 < size meta)%nat then <["meta" := VObject meta]> data else data.

(** The id a linkage entry carries, if it is an object with a string id. *)
Definition entryID (entry : value) : option string :=
  match entry with
  | VObject fields =>
      match fields !! "id" with
      | Some (VString id) => Some id
      | _ => None
      end
  | _ => None
  end.

Section RelationVocabulary.

Context {World Obj : Type} `{env : @Env World Obj}.

(** The object the relationship handlers hand to [Update]: the struct
    behind [editObj] when the backend returned a struct, [editObj] itself
    otherwise. *)
Definition editedValue (resType : Kind) (editObj : Obj) (w : World) : Obj :=
  if decide (resType = Struct) then elemOf editObj w else editObj.

(** What a relationship handler returns for the outcome of its [Update]
    call. *)
Definition afterUpdate (out : res (@Responder Obj)) : res unit :=
  match out with
  | Ret _ => Ret tt
  | Err e => Err e
  | Panic => Panic
  end.

(** The handler [h] ran into its [Update] call, which came back with [out]
    and left the world [w']: it returns accordingly, and the response
    carries status 204, also after the route has reported an error. *)
Definition answers204 (h : M unit) (r : httpRequest)
    (ms : gmap string ContentMarshaler) (s : @state World)
    (out : res (@Responder Obj)) (w' : World) : Prop :=
  h s = (afterUpdate out, {| world := w'; writer := WriteHeader 204 (writer s) |}) ∧
  w_status (WriteHeader 204 (writer s)) = Some 204 ∧
  w_status (writer (serve h r ms s).2) = Some 204.

End RelationVocabulary.

(** ** A small backend to run the handlers on

    One resource, [posts], whose objects carry an identity and the ids of
    one to-many relationship.  The world holds the ids behind the pointer
    the handlers edit and the objects the backend was asked to store. *)

Module Toy.

Record post : Type := {
  postType : rtype;
  postID : string;
  commentIDs : list string;
}.

Record store : Type := {
  cell : list string;
  stored : list post;
}.

Definition postStruct : rtype := TStruct "Post".

(** [*Post] implements the to-many edits; [Post] does not. *)
Definition editor (o : post) : option (@EditToManyRelations store) :=
  match postType o with
  | TPtr _ =>
      Some {| AddToManyIDs := λ _ ids w,
                {| cell := cell w ++ ids; stored := stored w |};
              DeleteToManyIDs := λ _ ids w,
                {| cell := filter (λ id, id ∉ ids) (cell w); stored := stored w |} |}
  | _ => None
  end.

(** A codec that decodes every body to [doc]. *)
Definition codec (doc : gmap string value) : ContentMarshaler :=
  {| Marshal := λ _, Ret "document";
     Unmarshal := λ _, Ret doc;
     MarshalError := λ _, "errors" |}.

#[global] Instance env : @Env store post :=
  {| encodeQuery := plainEncode;
     NegotiateContentType := λ r offers defaultOffer,
       match HTTPHeader r !! "Accept" with
       | Some (accept, _) => if decide (accept ∈ offers) then accept else defaultOffer
       | None => defaultOffer
       end;
     rangeKeys := λ ms, elements (dom ms);
     JSONContentMarshaler := codec ∅;
     TypeOf := postType;
     newPointerTo := λ o w,
       ({| postType := TPtr (postType o); postID := postID o; commentIDs := [] |},
        {| cell := commentIDs o; stored := stored w |});
     elemOf := λ p w,
       {| postType := TypeElem (postType p); postID := postID p; commentIDs := cell w |};
     asMarshalIdentifier := λ o, Some (λ _, postID o);
     asEditToManyRelations := editor;
     MarshalWithURLs := λ o _ _, Ret {[ "data" := from_option (λ p, VString (postID p)) VNil o ]};
     UnmarshalInto := λ _ t targets w,
       (Ret (match targets with
             | [] => [{| postType := t; postID := "new"; commentIDs := [] |}]
             | _ => targets
             end), w);
     UnmarshalRelationshipsData := λ _ _ _ w, (Ret tt, w) |}.

Definition reply (o : option post) (status : Z) : @Responder post :=
  {| Metadata := ∅; Result := o; StatusCode := status |}.

Definition thePost : post :=
  {| postType := postStruct; postID := "1"; commentIDs := ["7"] |}.

(** A backend that finds [found], answers Create with [created] and Update
    with [updated] (recording the object it is given), and lists nothing. *)
Definition backend (found created updated : res (@Responder post))
    : @CRUD store post :=
  {| FindOne := λ _ _ w, (found, w);
     Create := λ _ _ w, (created, w);
     Delete := λ _ _ w, (Ret (reply None 204), w);
     Update := λ o _ w, (updated, {| cell := cell w; stored := stored w ++ [o] |});
     asFindAll := None;
     asPaginatedFindAll := None |}.

(** The resource, with a codec registered for [application/json] that
    decodes every body to [doc]. *)
Definition posts (src : @CRUD store post) (doc : gmap string value)
    : @resource store post :=
  {| resourceType := postStruct; source := src; name := "posts";
     marshalers := {[ "application/json" := codec doc ]} |}.

(** The resource whose backend answers Create with [reply o status]. *)
Definition creating (o : option post) (status : Z) : @resource store post :=
  posts (backend (Ret (reply (Some thePost) 200)) (Ret (reply o status))
           (Ret (reply None 204))) ∅.

(** The resource whose backend answers Update with [updated] and whose
    codec decodes the request body to [doc]. *)
Definition editing (updated : res (@Responder post)) (doc : gmap string value)
    : @resource store post :=
  posts (backend (Ret (reply (Some thePost) 200)) (Ret (reply None 204)) updated) doc.

(** A document replacing post 1. *)
Definition patchDoc : gmap string value :=
  {[ "data" := VObject {[ "id" := VString "1"; "type" := VString "posts" ]} ]}.

(** A linkage document with one entry per given id value. *)
Definition linkage (ids : list value) : gmap string value :=
  {[ "data" := VArray ((λ id, VObject {[ "type" := VString "comments"; "id" := id ]})
                         <$> ids) ]}.

Definition comments : Reference := {| RefType := "comments"; RefName := "comments" |}.

Definition one : Params := [("id", "1")].

(** The pointer the relationship handlers edit, and what the backend is
    given once the ids [ids] stand behind it. *)
Definition thePointer : post :=
  {| postType := TPtr postStruct; postID := "1"; commentIDs := [] |}.

Definition edited (ids : list string) : store :=
  {| cell := ids;
     stored := [{| postType := postStruct; postID := "1"; commentIDs := ids |}] |}.

Definition start : @state store :=
  {| world := {| cell := []; stored := [] |}; writer := newResponseWriter |}.

(** A request whose body the registered codec decodes. *)
Definition jsonRequest : httpRequest :=
  {| URLPath := "/posts/1";
     URLQuery := ∅;
     HTTPHeader := {[ "Content-Type" := ("application/json", []) ]};
     HTTPBody := Ret "body" |}.

End Toy.

(** ** Marshalling relationships ([jsonapi]) *)

(** [jsonapi.ReferenceID] *)
Record ReferenceID : Type := {
  RIDType : string;
  RIDName : string;
  RIDID : string;
}.

(** [Node] of [jsonapi/marshal_same_type_test.go] with its
    [GetReferences] and [GetReferencedIDs]. *)
Record Node : Type := {
  ID : string;
  Content : string;
  MotherID : string;
  ChildIDs : list string;
  AbandonedChildIDs : list string;
}.

Definition GetReferences (n : Node) : list Reference :=
  [ {| RefType := "nodes"; RefName := "mother-node" |};
    {| RefType := "nodes"; RefName := "child-nodes" |};
    {| RefType := "nodes"; RefName := "abandoned-child-nodes" |} ].

Definition GetReferencedIDs (n : Node) : list ReferenceID :=
  let result : list ReferenceID := [] in
  let result :=
    if decide (MotherID n ≠ "")
    then app result
           [{| RIDType := "nodes"; RIDName := "mother-node"; RIDID := MotherID n |}]
    else result in
  let result :=
    app result
      ((λ referenceID,
         {| RIDType := "nodes"; RIDName := "child-nodes"; RIDID := referenceID |})
       <$> ChildIDs n) in
  let result :=
    app result
      ((λ referenceID,
         {| RIDType := "nodes"; RIDName := "abandoned-child-nodes";
            RIDID := referenceID |})
       <$> AbandonedChildIDs n) in
  result.

(** The node of the test and the relationships the test expects. *)
Definition theNode : Node :=
  {| ID := "super";
     Content := "I am the Super Node";
     MotherID := "1337";
     ChildIDs := ["666"; "42"];
     AbandonedChildIDs := ["2"; "1"] |}.

Definition nodeLinkage (id : string) : value :=
  VObject {[ "type" := VString "nodes"; "id" := VString id ]}.

Definition expectedRelationships : gmap string value :=
  {[ "mother-node" := VObject {[ "data" := nodeLinkage "1337" ]};
     "child-nodes" :=
       VObject {[ "data" := VArray [nodeLinkage "666"; nodeLinkage "42"] ]};
     "abandoned-child-nodes" :=
       VObject {[ "data" := VArray [nodeLinkage "2"; nodeLinkage "1"] ]} ]}.

Section MarshalModel.

(** [jsonapi.Pluralize]; a relationship is to-many when its name is its own
    plural, the test [addResource] applies before it registers the to-many
    routes. *)
Variable Pluralize : string → string.

Definition isToMany (reference : Reference) : bool :=
  bool_decide (RefName reference = Pluralize (RefName reference)).

Definition linkageOf (referenceID : ReferenceID) : value :=
  VObject {[ "type" := VString (RIDType referenceID);
             "id" := VString (RIDID referenceID) ]}.

(** The ReferenceIDs of one relationship, picked by its name. *)
Definition referenceIDsOf (reference : Reference) (referenceIDs : list ReferenceID)
    : list ReferenceID :=
  filter (λ referenceID, RIDName referenceID = RefName reference) referenceIDs.

(** Modelled from the spec: the relationship part of [Marshal], whose file
    [jsonapi/marshal.go] is not among the sources.  For each declared
    Reference, collect all ReferenceIDs whose name matches; emit a single
    linkage object for to-one (the first one collected, null when there is
    none), an ordered sequence preserving source order for to-many. *)
Definition marshalRelationship (reference : Reference)
    (referenceIDs : list ReferenceID) : value :=
  let collected := referenceIDsOf reference referenceIDs in
  if isToMany reference
  then VObject {[ "data" := VArray (linkageOf <$> collected) ]}
  else VObject {[ "data" := from_option linkageOf VNil (head collected) ]}.

Definition marshalRelationships (references : list Reference)
    (referenceIDs : list ReferenceID) : gmap string value :=
  list_to_map ((λ reference,
                 (RefName reference, marshalRelationship reference referenceIDs))
               <$> references).

End MarshalModel.

(** A plural ends in s. *)
Definition endsInS (name : string) : string :=
  match String.rev name with
  | String "s" _ => name
  | _ => name +:+ "s"
  end.


(** The error [collectIDs] returns at a linkage entry that carries no
    string id. *)
Definition entryError (entry : value) : error :=
  match entry with
  | VObject _ => errorString "no id field found inside data object"
  | _ => errorString "entry in data object invalid"
  end.

(** ** More of the small backend: listings and a second resource *)

Module ToyList.

Import Toy.

(** A backend that also lists: [FindAll] answers [listed], and
    [PaginatedFindAll] the same with a count of 25; both keep the values they
    were given for the parameter [postsID]. *)
Definition remember (req : Request) (w : store) : store :=
  {| cell := default [] (QueryParams req !! "postsID"); stored := stored w |}.

Definition listing (listed : res (@Responder post)) : @CRUD store post :=
  {| FindOne := λ _ _ w, (Ret (reply (Some thePost) 200), w);
     Create := λ _ _ w, (Ret (reply None 204), w);
     Delete := λ _ _ w, (Ret (reply None 204), w);
     Update := λ o _ w, (Ret (reply None 204), w);
     asFindAll := Some (λ req w, (listed, remember req w));
     asPaginatedFindAll :=
       Some (λ req w, (resp ← listed; Ret (25, resp), remember req w)) |}.

Definition commentsResource (listed : res (@Responder post)) : @resource store post :=
  {| resourceType := TStruct "Comment"; source := listing listed;
     name := "comments"; marshalers := ∅ |}.

(** The resource [posts] backed by the listing backend. *)
Definition listedPosts (listed : res (@Responder post)) : @resource store post :=
  {| resourceType := postStruct; source := listing listed;
     name := "posts"; marshalers := ∅ |}.

(** An [Error] struct as a value of the small backend. *)
Definition errorValue (e : Error_) : post :=
  {| postType := TStruct "Error"; postID := ErrTitle e; commentIDs := [] |}.

(** A codec that cannot encode. *)
Definition failing : ContentMarshaler :=
  {| Marshal := λ _, Err (errorString "cannot encode");
     Unmarshal := λ _, Err (errorString "cannot decode");
     MarshalError := λ _, "errors" |}.

(** The request of a client for the comments of post 1. *)
Definition linkedQuery (query : list (string * string)) : httpRequest :=
  {| URLPath := "/posts/1/comments";
     URLQuery := list_to_map ((λ kv : string * string, (kv.1, (kv.2, []))) <$> query);
     HTTPHeader := ∅;
     HTTPBody := Ret "" |}.

(** The small backend's imports with an [UnmarshalInto] that fills the
    objects it is given and makes none. *)
Definition fillOnly : @Env store post :=
  {| encodeQuery := plainEncode;
     NegotiateContentType := NegotiateContentType (Env := env);
     rangeKeys := λ ms, elements (dom ms);
     JSONContentMarshaler := codec ∅;
     TypeOf := postType;
     newPointerTo := newPointerTo (Env := env);
     elemOf := elemOf (Env := env);
     asMarshalIdentifier := λ o, Some (λ _, postID o);
     asEditToManyRelations := editor;
     MarshalWithURLs := MarshalWithURLs (Env := env);
     UnmarshalInto := λ _ _ targets w, (Ret targets, w);
     UnmarshalRelationshipsData := λ _ _ _ w, (Ret tt, w) |}.

(** The resource [posts] with the codec that cannot encode registered for
    [application/json]. *)
Definition unencodable : @resource store post :=
  {| resourceType := postStruct;
     source := backend (Ret (reply (Some thePost) 200)) (Ret (reply None 204))
                 (Ret (reply None 204));
     name := "posts";
     marshalers := {[ "application/json" := failing ]} |}.

(** A backend that answers Delete with [deleted]. *)
Definition deleting (deleted : res (@Responder post)) : @resource store post :=
  {| resourceType := postStruct;
     source :=
       {| FindOne := λ _ _ w, (Ret (reply (Some thePost) 200), w);
          Create := λ _ _ w, (Ret (reply None 204), w);
          Delete := λ _ _ w, (deleted, w);
          Update := λ _ _ w, (Ret (reply None 204), w);
          asFindAll := None;
          asPaginatedFindAll := None |};
     name := "posts";
     marshalers := ∅ |}.

(** A backend that finds [found]. *)
Definition finding (found : res (@Responder post)) (doc : gmap string value)
    : @resource store post :=
  posts (backend found (Ret (reply None 204)) (Ret (reply None 204))) doc.

(** A router that takes a route unless its path does not begin with a
    slash or is already registered under the method. *)
Definition takes (registered : list route) (rt : route) : bool :=
  match routePath rt with
  | String "/" _ =>
      forallb (λ old, negb (bool_decide (routeMethod old = routeMethod rt
                                         ∧ routePath old = routePath rt)))
        registered
  | _ => false
  end.

(** A prototype that declares the relations [author] and [comments]. *)
Definition declared (o : post) : option (list Reference) :=
  Some [ {| RefType := "users"; RefName := "author" |}; comments ].

End ToyList.

(** * Properties *)

(** ** Pagination links *)

Section LinkProperties.

Variable encodeQuery : Values → string.

Import strconv.

Lemma ceilDiv_least (count size : Z) :
  0 < size → 0 ≤ count →
  count ≤ ceilDiv count size * size ∧
  ∀ k, count ≤ k * size → ceilDiv count size ≤ k.
Proof.
  intros Hs Hc. unfold ceilDiv. split.
  - pose proof (Z.div_mod (count + size - 1) size ltac:(lia)) as Hdm.
    pose proof (Z.mod_pos_bound (count + size - 1) size Hs). nia.
  - intros k Hk. apply Z.lt_succ_r, Z.div_lt_upper_bound; lia.
Qed.

Lemma totalPages_ceil (count size : Z) :
  0 < size → 0 ≤ count < 2 ^ 64 →
  (if decide (wrap64 count mod size ≠ 0) then wrap64 (wrap64 count / size + 1)
   else wrap64 count / size) = ceilDiv count size.
Proof.
  intros Hs Hc. unfold wrap64, ceilDiv.
  rewrite (Z.mod_small count) by lia.
  pose proof (Z.div_mod count size ltac:(lia)) as Hdm.
  pose proof (Z.mod_pos_bound count size Hs) as Hb.
  assert (0 ≤ count / size) by (apply Z.div_pos; lia).
  assert (count / size ≤ count) by (apply Z.div_le_upper_bound; nia).
  destruct (decide (count mod size ≠ 0)) as [Hne|Heq].
  - assert (size ≠ 1) by (intros ->; rewrite Z.mod_1_r in Hne; lia).
    assert (count / size * 2 ≤ count) by nia.
    rewrite Z.mod_small by lia.
    apply (Z.div_unique _ _ _ (count mod size - 1)); lia.
  - assert (count mod size = 0) by lia.
    apply (Z.div_unique _ _ _ (size - 1)); lia.
Qed.

Lemma baseURL_prefix (info : information) :
  (if decide (GetBaseURL info ≠ "") then GetBaseURL info else "") = GetBaseURL info.
Proof. destruct (decide (GetBaseURL info ≠ "")) as [|Hn]; [done|]. by destruct (decide (GetBaseURL info = "")) as [->|]. Qed.

Lemma Set_Set (v : Values) (key a b : string) :
  Set_ (Set_ v key a) key b = Set_ v key b.
Proof. unfold Set_. apply insert_insert_eq. Qed.


Lemma digitVal_range (c : ascii) (d : Z) : digitVal c = Some d → 0 ≤ d ≤ 9.
Proof.
  unfold digitVal. destruct (_ && _) eqn:E; [|done].
  intros [= <-]. apply andb_prop in E as [?%Z.leb_le ?%Z.leb_le]. lia.
Qed.

Lemma parseDigits_range (s : string) (acc n : Z) :
  0 ≤ acc < 2 ^ 64 → parseDigits acc s = inr n → 0 ≤ n < 2 ^ 64.
Proof.
  revert acc. induction s as [|c s IH]; intros acc Hacc; cbn.
  - by intros [= <-].
  - destruct (digitVal c) as [d|] eqn:Hd; [|done].
    apply digitVal_range in Hd.
    destruct (Z.leb_spec (2 ^ 64) (acc * 10 + d)); [done|].
    apply IH. lia.
Qed.

Lemma ParseUint_range (s : string) (n : Z) :
  ParseUint s = Ret n → 0 ≤ n < 2 ^ 64.
Proof.
  unfold ParseUint. destruct s as [|c s]; [done|].
  destruct (parseDigits 0 (String c s)) as [|m] eqn:E; [done|].
  intros [= <-]. apply (parseDigits_range _ 0 _ ltac:(lia) E).
Qed.

Lemma FormatUint_inj (n m : Z) :
  0 ≤ n → 0 ≤ m → FormatUint n = FormatUint m → n = m.
Proof.
  intros Hn Hm Heq. unfold FormatUint in Heq.
  apply (f_equal NilEmpty.uint_of_string) in Heq.
  rewrite !NilEmpty.usu in Heq. injection Heq as Heq.
  apply DecimalN.Unsigned.to_uint_inj in Heq. by apply Z2N.inj.
Qed.

Ltac res_steps := cbn [mbind res_bind mret res_ret].

(** X17.  Strategy A, as [getLinks] computes it.  When [page[number]]
    parses to [n] with [1 ≤ n < 2^64 - 1], [page[size]] parses to [s ≥ 1]
    and the count fits 64 bits, [getLinks] returns, with totalPages =
    ceil(count/s): [first]
    (page 1) and [prev] (page n-1) are present exactly when the text of
    [page[number]] is not the numeral 1, which for a number written without
    leading zeros means n ≠ 1; [next] (page n+1) and [last] (page
    totalPages) are present exactly when n ≠ totalPages.  Every link is the
    request's URL with [page[number]] alone rewritten, and there is no
    other link. *)
Theorem getLinks_number_size (p : paginationQueryParams) (r : httpRequest)
    (count : Z) (info : information) (n s : Z) :
  p_number p ≠ "" →
  ParseUint (p_number p) = Ret n →
  ParseUint (p_size p) = Ret s →
  1 ≤ n < 2 ^ 64 - 1 → 1 ≤ s → 0 ≤ count < 2 ^ 64 →
  ∃ links : gmap string string,
    getLinks encodeQuery p r count info = Ret links ∧
    links !! "first" =
      (if decide (p_number p = "1") then None
       else Some (pageLink encodeQuery info r "page[number]" "1")) ∧
    links !! "prev" =
      (if decide (p_number p = "1") then None
       else Some (pageLink encodeQuery info r "page[number]" (FormatUint (n - 1)))) ∧
    links !! "next" =
      (if decide (n = ceilDiv count s) then None
       else Some (pageLink encodeQuery info r "page[number]" (FormatUint (n + 1)))) ∧
    links !! "last" =
      (if decide (n = ceilDiv count s) then None
       else Some (pageLink encodeQuery info r "page[number]" (FormatUint (ceilDiv count s)))) ∧
    dom links ⊆ {["first"; "prev"; "next"; "last"]} ∧
    (p_number p = FormatUint n → (p_number p = "1" ↔ n = 1)).
Proof.
  intros Hnum Hn Hs Hnr Hsr Hc.
  assert (p_number p = FormatUint n → (p_number p = "1" ↔ n = 1)) as Hcanon.
  { intros ->. split; [|by intros ->].
    intros H1. by apply (FormatUint_inj n 1); [lia..|]. }
  unfold getLinks. rewrite baseURL_prefix, (decide_True _ _ Hnum), Hn. res_steps.
  assert (wrap64 (n - 1) = n - 1) as -> by (unfold wrap64; apply Z.mod_small; lia).
  assert (wrap64 (n + 1) = n + 1) as -> by (unfold wrap64; apply Z.mod_small; lia).
  destruct (decide (p_number p ≠ "1")); rewrite Hs; res_steps;
    rewrite (decide_False (P := s = 0)) by lia;
    rewrite totalPages_ceil by lia;
    destruct (decide (n ≠ ceilDiv count s));
    (eexists; split; [reflexivity|]);
    rewrite ?Set_Set; unfold pageLink;
    repeat case_decide; try done;
    (split_and!; [by simplify_map_eq.. | set_solver | exact Hcanon]).
Qed.

(** X18.  Strategy B, as [getLinks] computes it.  When [page[number]] is
    empty, [page[offset]] parses
    to [o], [page[limit]] parses to [l], [o + l] and the count fit 64 bits,
    [getLinks] returns: [first] (offset 0) and [prev] (offset
    max(0, o - l)) are present exactly when the text of [page[offset]] is
    not the numeral 0, which for a number written without leading zeros
    means o ≠ 0; [next] (offset o + l) and [last] (offset count - l) are
    present exactly when o + l < count. *)
Theorem getLinks_offset_limit (p : paginationQueryParams) (r : httpRequest)
    (count : Z) (info : information) (o l : Z) :
  p_number p = "" →
  ParseUint (p_offset p) = Ret o →
  ParseUint (p_limit p) = Ret l →
  o + l < 2 ^ 64 → 0 ≤ count < 2 ^ 64 →
  ∃ links : gmap string string,
    getLinks encodeQuery p r count info = Ret links ∧
    links !! "first" =
      (if decide (p_offset p = "0") then None
       else Some (pageLink encodeQuery info r "page[offset]" "0")) ∧
    links !! "prev" =
      (if decide (p_offset p = "0") then None
       else Some (pageLink encodeQuery info r "page[offset]"
                    (FormatUint (Z.max 0 (o - l))))) ∧
    links !! "next" =
      (if decide (o + l < count)
       then Some (pageLink encodeQuery info r "page[offset]" (FormatUint (o + l)))
       else None) ∧
    links !! "last" =
      (if decide (o + l < count)
       then Some (pageLink encodeQuery info r "page[offset]" (FormatUint (count - l)))
       else None) ∧
    dom links ⊆ {["first"; "prev"; "next"; "last"]} ∧
    (p_offset p = FormatUint o → (p_offset p = "0" ↔ o = 0)).
Proof.
  intros Hnum Ho Hl Hsum Hc.
  pose proof (ParseUint_range _ _ Ho). pose proof (ParseUint_range _ _ Hl).
  assert (p_offset p = FormatUint o → (p_offset p = "0" ↔ o = 0)) as Hcanon.
  { intros ->. split; [|by intros ->].
    intros H0'. by apply (FormatUint_inj o 0); [lia..|]. }
  unfold getLinks.
  rewrite baseURL_prefix, (decide_False (P := p_number p ≠ "")) by (by intros []).
  rewrite Ho, Hl. res_steps.
  assert (wrap64 count = count) as -> by (unfold wrap64; apply Z.mod_small; lia).
  assert (wrap64 (o + l) = o + l) as -> by (unfold wrap64; apply Z.mod_small; lia).
  assert ((if decide (o < l) then 0 else o - l) = Z.max 0 (o - l)) as ->
    by (case_decide; lia).
  destruct (decide (p_offset p ≠ "0"));
    destruct (decide (o + l < count));
    rewrite ?(Z.mod_small (count - l)) by lia;
    (eexists; split; [reflexivity|]);
    rewrite ?Set_Set; unfold pageLink, wrap64;
    rewrite ?(Z.mod_small (count - l)) by lia;
    repeat case_decide; try done;
    (split_and!; [by simplify_map_eq.. | set_solver | exact Hcanon]).
Qed.

End LinkProperties.

(** ** The planner on concrete requests *)

Section LinkExamples.

Import strconv.

Ltac run_links thm r count a b :=
  destruct (thm plainEncode (newPaginationQueryParams r) r count noInfo a b)
    as (links & Hrun & Hfirst & Hprev & Hnext & Hlast & _ & _);
  [first [done | reflexivity | lia].. |];
  vm_compute in Hfirst, Hprev, Hnext, Hlast;
  exists links; split_and!; [exact Hrun | vm_compute; assumption ..].

(** count=25, size=10: page 2 has prev=1, next=3, last=3; page 1 has no
    first/prev; page 3, the last one, has no next/last. *)
Lemma getLinks_number_size_witness :
  (∃ links : gmap string string,
     getLinks plainEncode (newPaginationQueryParams (page "2" "10")) (page "2" "10") 25 noInfo
       = Ret links ∧
     links !! "first" = numberLink (page "2" "10") "1" ∧
     links !! "prev" = numberLink (page "2" "10") "1" ∧
     links !! "next" = numberLink (page "2" "10") "3" ∧
     links !! "last" = numberLink (page "2" "10") "3") ∧
  (∃ links : gmap string string,
     getLinks plainEncode (newPaginationQueryParams (page "1" "10")) (page "1" "10") 25 noInfo
       = Ret links ∧
     links !! "first" = None ∧
     links !! "prev" = None ∧
     links !! "next" = numberLink (page "1" "10") "2" ∧
     links !! "last" = numberLink (page "1" "10") "3") ∧
  (∃ links : gmap string string,
     getLinks plainEncode (newPaginationQueryParams (page "3" "10")) (page "3" "10") 25 noInfo
       = Ret links ∧
     links !! "first" = numberLink (page "3" "10") "1" ∧
     links !! "prev" = numberLink (page "3" "10") "2" ∧
     links !! "next" = None ∧
     links !! "last" = None).
Proof.
  split_and!.
  - run_links getLinks_number_size (page "2" "10") 25 2 10.
  - run_links getLinks_number_size (page "1" "10") 25 1 10.
  - run_links getLinks_number_size (page "3" "10") 25 3 10.
Defined.

(** C2.  The first-page test of strategy A reads the text of the
    parameter where the last-page test reads the number.  A page number
    written 01 parses to 1, yet [first] and [prev] are emitted, [prev]
    pointing at page 0, while the last page of three written 03 has its
    [next] and [last] left out as the claim says, and so has page 1
    written 1 its [first] and [prev]. *)
Lemma getLinks_number_leading_zero :
  (ParseUint "01" = Ret 1 ∧
   ∃ links : gmap string string,
     getLinks plainEncode (newPaginationQueryParams (page "01" "10")) (page "01" "10")
       25 noInfo = Ret links ∧
     links !! "first" = numberLink (page "01" "10") "1" ∧
     links !! "prev" = numberLink (page "01" "10") "0") ∧
  (ParseUint "03" = Ret 3 ∧ ceilDiv 25 10 = 3 ∧
   ∃ links : gmap string string,
     getLinks plainEncode (newPaginationQueryParams (page "03" "10")) (page "03" "10")
       25 noInfo = Ret links ∧
     links !! "next" = None ∧
     links !! "last" = None) ∧
  (∃ links : gmap string string,
     getLinks plainEncode (newPaginationQueryParams (page "1" "10")) (page "1" "10")
       25 noInfo = Ret links ∧
     links !! "first" = None ∧
     links !! "prev" = None).
Proof.
  split_and!; try reflexivity;
    (eexists; split_and!; [vm_compute; reflexivity | reflexivity ..]).
Qed.

(** count=25, limit=10, offset=10: first offset=0, prev offset=0, next
    offset=20, last offset=15. *)
Lemma getLinks_offset_limit_witness :
  ∃ links : gmap string string,
    getLinks plainEncode (newPaginationQueryParams (slice "10" "10")) (slice "10" "10") 25 noInfo
      = Ret links ∧
    links !! "first" = offsetLink (slice "10" "10") "0" ∧
    links !! "prev" = offsetLink (slice "10" "10") "0" ∧
    links !! "next" = offsetLink (slice "10" "10") "20" ∧
    links !! "last" = offsetLink (slice "10" "10") "15".
Proof.
  run_links getLinks_offset_limit (slice "10" "10") 25 10 10.
Defined.

(** C3.  The first-page test of strategy B reads the text of the
    parameter where the test for more entries reads the numbers.  An
    offset written 00 parses to 0, yet [first] and [prev] are emitted,
    while the offset 20 written 020, with limit 10 over 25 entries, has its
    [next] and [last] left out as the claim says, and so has the offset 0
    written 0 its [first] and [prev]. *)
Lemma getLinks_offset_leading_zero :
  (ParseUint "00" = Ret 0 ∧
   ∃ links : gmap string string,
     getLinks plainEncode (newPaginationQueryParams (slice "00" "10")) (slice "00" "10")
       25 noInfo = Ret links ∧
     links !! "first" = offsetLink (slice "00" "10") "0" ∧
     links !! "prev" = offsetLink (slice "00" "10") "0") ∧
  (ParseUint "020" = Ret 20 ∧
   ∃ links : gmap string string,
     getLinks plainEncode (newPaginationQueryParams (slice "020" "10"))
       (slice "020" "10") 25 noInfo = Ret links ∧
     links !! "next" = None ∧
     links !! "last" = None) ∧
  (∃ links : gmap string string,
     getLinks plainEncode (newPaginationQueryParams (slice "0" "10")) (slice "0" "10")
       25 noInfo = Ret links ∧
     links !! "first" = None ∧
     links !! "prev" = None).
Proof.
  split_and!; try reflexivity;
    (eexists; split_and!; [vm_compute; reflexivity | reflexivity ..]).
Qed.

End LinkExamples.

(** ** Query parameters *)

Section QueryProperties.

Import strings.






End QueryProperties.

(** ** The query on a concrete request *)


(** ** Codec selection and the response writer *)

Section DispatcherProperties.

Context {World Obj : Type} `{env : @Env World Obj}.

Lemma WriteHeader_status (status : Z) (w : ResponseWriter) :
  w_status (WriteHeader status w) = Some (default status (w_status w)).
Proof. unfold WriteHeader. destruct (w_status w) eqn:E; cbn; by rewrite ?E. Qed.

Lemma Write_status (data : string) (w : ResponseWriter) :
  w_status (Write data w) = Some (default 200 (w_status w)).
Proof.
  unfold Write. pose proof (WriteHeader_status 200 w) as H.
  destruct (w_status (WriteHeader 200 w)) as [st|] eqn:E; [|done].
  destruct (bodyAllowedForStatus st); cbn; congruence.
Qed.

Lemma writeResult_status (data : string) (status : Z) (contentType : string)
    (w : ResponseWriter) :
  w_status (writeResult data status contentType w)
    = Some (default status (w_status w)).
Proof.
  unfold writeResult. rewrite Write_status, WriteHeader_status. cbn.
  by destruct (w_status w).
Qed.

Lemma handleError_run (e : error) (r : httpRequest)
    (ms : gmap string ContentMarshaler) (s : @state World) :
  ∃ body contentType,
    handleError e r ms s
      = (Ret tt, {| world := world s;
                    writer := writeResult body (errorStatus e) contentType (writer s) |}).
Proof.
  unfold handleError. destruct (selectContentMarshaler r ms) as [m ct].
  exists (MarshalError m e), ct. by destruct e.
Qed.

Lemma serve_error (h : M unit) (e : error) (r : httpRequest)
    (ms : gmap string ContentMarshaler) (s s' : @state World) :
  h s = (Err e, s') →
  ∃ body contentType,
    serve h r ms s
      = (Ret tt, {| world := world s';
                    writer := writeResult body (errorStatus e) contentType (writer s') |}).
Proof. intros Hh. unfold serve. rewrite Hh. apply handleError_run. Qed.

Lemma serve_error_status (h : M unit) (e : error) (r : httpRequest)
    (ms : gmap string ContentMarshaler) (s s' : @state World) :
  h s = (Err e, s') →
  w_status (writer (serve h r ms s).2)
    = Some (default (errorStatus e) (w_status (writer s'))).
Proof.
  intros Hh. destruct (serve_error h e r ms s s' Hh) as (body & ct & ->).
  cbn. apply writeResult_status.
Qed.

Lemma isValid_spec (p : paginationQueryParams) :
  isValid p = true ↔ numberAndSize p ∨ offsetAndLimit p.
Proof.
  unfold isValid, numberAndSize, offsetAndLimit.
  repeat case_bool_decide; naive_solver.
Qed.

(** C4.  [isValid] holds exactly for number and size both set with offset
    and limit empty, or offset and limit both set with number and size
    empty.  With valid parameters [handleIndex] needs [PaginatedFindAll]: a
    backend without it makes the handler return a 404 error, which the
    route writes as status 404, and a backend with it is asked for the
    page.  With any other combination, such as number and limit set, the
    handler needs [FindAll] in the same way and never looks at
    [PaginatedFindAll]. *)
Theorem handleIndex_branches (rs : resource) (r : httpRequest)
    (info : information) (s : @state World) :
  w_status (writer s) = None →
  (isValid (newPaginationQueryParams r) = true ↔
     numberAndSize (newPaginationQueryParams r)
     ∨ offsetAndLimit (newPaginationQueryParams r)) ∧
  (isValid (newPaginationQueryParams r) = true →
     match asPaginatedFindAll (source rs) with
     | None =>
         handleIndex rs r info s
           = (Err (httpError None
                "Resource does not implement the PaginatedFindAll interface" 404), s)
         ∧ w_status (writer (serve (handleIndex rs r info) r (marshalers rs) s).2)
           = Some 404
     | Some paginatedFindAll =>
         handleIndex rs r info s =
           ('(count, response) ← try (paginatedFindAll (buildRequest r));
            paginationLinks ←
              lift (getLinks encodeQuery (newPaginationQueryParams r) r count info);
            respondWithPagination response info 200 paginationLinks r (marshalers rs)) s
     end) ∧
  (isValid (newPaginationQueryParams r) = false →
     match asFindAll (source rs) with
     | None =>
         handleIndex rs r info s
           = (Err (httpError None
                "Resource does not implement the FindAll interface" 404), s)
         ∧ w_status (writer (serve (handleIndex rs r info) r (marshalers rs) s).2)
           = Some 404
     | Some findAll =>
         handleIndex rs r info s =
           (response ← try (findAll (buildRequest r));
            respondWith response info 200 r (marshalers rs)) s
     end) ∧
  (p_number (newPaginationQueryParams r) ≠ "" →
   p_limit (newPaginationQueryParams r) ≠ "" →
   isValid (newPaginationQueryParams r) = false).
Proof.
  intros Hfresh. split_and!.
  - apply isValid_spec.
  - intros Hv. destruct (asPaginatedFindAll (source rs)) as [f|] eqn:Hcap.
    { unfold handleIndex. by rewrite Hv, Hcap. }
    assert (handleIndex rs r info s
      = (Err (httpError None
           "Resource does not implement the PaginatedFindAll interface" 404), s)) as Hrun
      by (unfold handleIndex; by rewrite Hv, Hcap).
    split; [exact Hrun|].
    rewrite (serve_error_status _ _ r (marshalers rs) s s Hrun). by rewrite Hfresh.
  - intros Hv. destruct (asFindAll (source rs)) as [f|] eqn:Hcap.
    { unfold handleIndex. by rewrite Hv, Hcap. }
    assert (handleIndex rs r info s
      = (Err (httpError None
           "Resource does not implement the FindAll interface" 404), s)) as Hrun
      by (unfold handleIndex; by rewrite Hv, Hcap).
    split; [exact Hrun|].
    rewrite (serve_error_status _ _ r (marshalers rs) s s Hrun). by rewrite Hfresh.
  - intros Hn Hl. destruct (isValid _) eqn:Hv; [|done].
    apply isValid_spec in Hv as [(_ & _ & _ & ?)|(? & _)]; done.
Qed.

Lemma bind_run {A B : Type} (m : M A) (f : A → M B) (s : @state World) :
  (m ≫= f) s =
    match m s with
    | (Ret a, s') => f a s'
    | (Err e, s') => (Err e, s')
    | (Panic, s') => (Panic, s')
    end.
Proof. reflexivity. Qed.

Lemma try_run {A : Type} (f : call A) (s : @state World) (out : res A) (w' : World) :
  f (world s) = (out, w') →
  try f s = (out, {| world := w'; writer := writer s |}).
Proof. intros Hf. unfold try. by rewrite Hf. Qed.

Lemma unmarshalRequest_state (r : httpRequest)
    (ms : gmap string ContentMarshaler) (s s' : @state World)
    (out : res (gmap string value)) :
  unmarshalRequest r ms s = (out, s') → s' = s.
Proof.
  unfold unmarshalRequest. rewrite bind_run. unfold lift.
  destruct (HTTPBody r); destruct (selectContentMarshaler r ms);
    intros [= _ Hs]; by rewrite Hs.
Qed.

Lemma marshalResponse_ok (resp : value) (status : Z) (r : httpRequest)
    (ms : gmap string ContentMarshaler) (s : @state World) (bytes : string) :
  Marshal (selectContentMarshaler r ms).1 resp = Ret bytes →
  marshalResponse resp status r ms s
    = (Ret tt, {| world := world s;
                  writer := writeResult bytes status (selectContentMarshaler r ms).2
                              (writer s) |}).
Proof.
  unfold marshalResponse. destruct (selectContentMarshaler r ms) as [m ct]. cbn.
  intros Hm. rewrite bind_run. unfold lift. by rewrite Hm.
Qed.

Lemma respondWith_ok (obj : Responder) (info : information) (status : Z)
    (r : httpRequest) (ms : gmap string ContentMarshaler) (s : @state World)
    (data : gmap string value) (bytes : string) :
  MarshalWithURLs (Result obj) info (world s) = Ret data →
  Marshal (selectContentMarshaler r ms).1 (VObject (withMeta (Metadata obj) data))
    = Ret bytes →
  respondWith obj info status r ms s
    = (Ret tt, {| world := world s;
                  writer := writeResult bytes status (selectContentMarshaler r ms).2
                              (writer s) |}).
Proof.
  intros Hdata Hbytes. unfold respondWith. rewrite bind_run, Hdata. by apply marshalResponse_ok.
Qed.

Lemma writeResult_body (data : string) (status : Z) (contentType : string)
    (w : ResponseWriter) :
  w_status w = None → bodyAllowedForStatus status = true →
  w_body (writeResult data status contentType w) = w_body w +:+ data.
Proof.
  intros Hfresh Hallowed. unfold writeResult, Write, WriteHeader, HeaderSet. cbn.
  rewrite Hfresh. cbn. by rewrite Hallowed.
Qed.

Lemma writeResult_header (data : string) (status : Z) (contentType key : string)
    (w : ResponseWriter) :
  key ≠ "Content-Type" →
  w_header (writeResult data status contentType w) !! key = w_header w !! key.
Proof.
  intros Hkey. unfold writeResult, Write, WriteHeader, HeaderSet. cbn.
  destruct (w_status w); cbn; repeat case_match; cbn;
    unfold Set_; by rewrite lookup_insert_ne.
Qed.

(** C8.  [selectContentMarshaler]: with an Accept header the content type
    is negotiated over the registered content types with
    [defaultContentTypHeader] as the default offer; without it, a
    Content-Type header names the content type to look up; a content type
    with no registered codec, or no header at all, gives the default codec
    under the default content type.  [unmarshalRequest] decodes with, and
    [marshalResponse] encodes with and announces, what this one function
    selects for the request. *)
Theorem selectContentMarshaler_order (r : httpRequest)
    (ms : gmap string ContentMarshaler) :
  rangeKeys ms ≡ₚ elements (dom ms) →
  (∀ ct, ct ∈ rangeKeys ms ↔ is_Some (ms !! ct)) ∧
  (is_Some (HTTPHeader r !! "Accept") →
     selectContentMarshaler r ms =
       from_option
         (λ m, (m, NegotiateContentType r (rangeKeys ms) defaultContentTypHeader))
         (JSONContentMarshaler, defaultContentTypHeader)
         (ms !! NegotiateContentType r (rangeKeys ms) defaultContentTypHeader)) ∧
  (HTTPHeader r !! "Accept" = None →
     ∀ ct rest, HTTPHeader r !! "Content-Type" = Some (ct, rest) →
     selectContentMarshaler r ms =
       from_option (λ m, (m, ct))
         (JSONContentMarshaler, defaultContentTypHeader) (ms !! ct)) ∧
  (HTTPHeader r !! "Accept" = None →
     HTTPHeader r !! "Content-Type" = None →
     selectContentMarshaler r ms = (JSONContentMarshaler, defaultContentTypHeader)) ∧
  (∀ s : @state World,
     unmarshalRequest r ms s =
       (data ← lift (HTTPBody r);
        lift (Unmarshal (selectContentMarshaler r ms).1 data)) s) ∧
  (∀ (resp : value) (status : Z) (s : @state World),
     marshalResponse resp status r ms s =
       (result ← lift (Marshal (selectContentMarshaler r ms).1 resp);
        onWriter (writeResult result status (selectContentMarshaler r ms).2)) s).
Proof.
  intros Hrange. split_and!.
  - intros ct. rewrite Hrange, elem_of_elements. apply elem_of_dom.
  - intros [accept Ha]. unfold selectContentMarshaler. rewrite Ha.
    by destruct (ms !! _).
  - intros Ha ct rest Hct. unfold selectContentMarshaler. rewrite Ha, Hct. cbn.
    by destruct (ms !! ct).
  - intros Ha Hct. unfold selectContentMarshaler. by rewrite Ha, Hct.
  - intros s. unfold unmarshalRequest.
    by destruct (selectContentMarshaler r ms).
  - intros resp status s. unfold marshalResponse.
    by destruct (selectContentMarshaler r ms).
Qed.

End DispatcherProperties.

(** ** Create *)

Section CreateVerb.

Context {World Obj : Type} `{env : @Env World Obj}.

Import strconv.

Variables (rs : @resource World Obj) (r : httpRequest).
Variables (prefix : string) (info : information).
Variables (s : @state World) (ctx : gmap string value) (newObj : Obj).
Variables (w1 w2 : World) (response : @Responder Obj).

(** The request reaches the backend and the backend answers. *)
Hypothesis Hfresh : w_status (writer s) = None.
Hypothesis Hbody : unmarshalRequest r (marshalers rs) s = (Ret ctx, s).
Hypothesis Hinto :
  UnmarshalInto ctx (structTypeOf rs) [] (world s) = (Ret [newObj], w1).
Hypothesis Hcreate :
  Create (source rs) newObj (buildRequest r) w1 = (Ret response, w2).

Lemma handleCreate_after_backend :
  handleCreate rs r prefix info s =
    match Result response ≫= asMarshalIdentifier with
    | None =>
        (Err (errorString
           ("Expected one newly created object by resource " +:+ name rs)),
         {| world := w2; writer := writer s |})
    | Some GetID =>
        let located :=
          {| world := w2;
             writer := HeaderSet "Location"
                         (prefix +:+ name rs +:+ "/" +:+ GetID w2) (writer s) |} in
        if decide (StatusCode response = 201) then
          respondWith response info 201 r (marshalers rs) located
        else if decide (StatusCode response = 204) then
          (Ret tt, {| world := w2;
                      writer := WriteHeader (StatusCode response) (writer located) |})
        else if decide (StatusCode response = 202) then
          (Ret tt, {| world := w2;
                      writer := WriteHeader (StatusCode response) (writer located) |})
        else
          (Err (errorString
             ("invalid status code " +:+ FormatInt (StatusCode response)
              +:+ " from resource " +:+ name rs +:+ " for method Create")),
           located)
    end.
Proof.
  unfold handleCreate. rewrite bind_run, Hbody, bind_run.
  rewrite (try_run _ _ _ _ Hinto), bind_run.
  rewrite (try_run _ _ _ w2) by exact Hcreate.
  cbn [writer world].
  destruct (Result response ≫= asMarshalIdentifier) as [GetID|]; [|done].
  rewrite bind_run. unfold readWorld at 1. cbn [world]. rewrite bind_run.
  unfold onWriter, throw. cbn [writer world].
  repeat case_decide; done.
Qed.

(** C1.  Create, once the backend has answered.  When the result carries
    an identity the Location header is set to prefix + name + "/" + id,
    and: a 201 echoes the object with status 201; a 202 or 204 forwards the
    status and writes no body; any other status is returned as the error
    "invalid status code ... for method Create", which the route writes as
    status 500.  When the result carries no identity the handler returns
    the error "Expected one newly created object by resource ...",
    whatever the status, and the route writes status 500. *)
Theorem handleCreate_statuses :
  (∀ (o : Obj) (GetID : World → string),
     Result response = Some o → asMarshalIdentifier o = Some GetID →
     (StatusCode response = 201 →
        handleCreate rs r prefix info s =
          respondWith response info 201 r (marshalers rs)
            {| world := w2;
               writer := HeaderSet "Location"
                           (prefix +:+ name rs +:+ "/" +:+ GetID w2) (writer s) |}
        ∧ ∀ data bytes,
            MarshalWithURLs (Result response) info w2 = Ret data →
            Marshal (selectContentMarshaler r (marshalers rs)).1
              (VObject (withMeta (Metadata response) data)) = Ret bytes →
            ∃ final,
              handleCreate rs r prefix info s = (Ret tt, final) ∧
              w_status (writer final) = Some 201 ∧
              w_body (writer final) = w_body (writer s) +:+ bytes ∧
              w_header (writer final) !! "Location"
                = Some (prefix +:+ name rs +:+ "/" +:+ GetID w2, [])) ∧
     (StatusCode response = 202 ∨ StatusCode response = 204 →
        ∃ final,
          handleCreate rs r prefix info s = (Ret tt, final) ∧
          w_status (writer final) = Some (StatusCode response) ∧
          w_body (writer final) = w_body (writer s) ∧
          w_header (writer final) !! "Location"
            = Some (prefix +:+ name rs +:+ "/" +:+ GetID w2, [])) ∧
     (StatusCode response ≠ 201 → StatusCode response ≠ 202 →
      StatusCode response ≠ 204 →
        (∃ final,
           handleCreate rs r prefix info s =
             (Err (errorString
                ("invalid status code " +:+ FormatInt (StatusCode response)
                 +:+ " from resource " +:+ name rs +:+ " for method Create")),
              final)) ∧
        w_status (writer (serve (handleCreate rs r prefix info) r (marshalers rs) s).2)
          = Some 500)) ∧
  (Result response ≫= asMarshalIdentifier = None →
     handleCreate rs r prefix info s =
       (Err (errorString
          ("Expected one newly created object by resource " +:+ name rs)),
        {| world := w2; writer := writer s |}) ∧
     w_status (writer (serve (handleCreate rs r prefix info) r (marshalers rs) s).2)
       = Some 500).
Proof.
  pose proof handleCreate_after_backend as Hrun.
  split.
  - intros o GetID Ho Hid.
    rewrite Ho in Hrun. cbn in Hrun. rewrite Hid in Hrun. cbn zeta in Hrun.
    split_and!.
    + intros H201. rewrite (decide_True _ _ H201) in Hrun. split; [exact Hrun|].
      intros data bytes Hdata Hbytes. rewrite Hrun.
      erewrite respondWith_ok; [|exact Hdata|exact Hbytes].
      eexists. split; [reflexivity|]. cbn. split_and!.
      * rewrite writeResult_status. cbn. by rewrite Hfresh.
      * by rewrite writeResult_body.
      * rewrite writeResult_header by done. cbn. unfold Set_.
        by rewrite lookup_insert_eq.
    + intros Hst. eexists. split.
      * rewrite Hrun. repeat case_decide; try reflexivity; lia.
      * cbn. rewrite WriteHeader_status. cbn. rewrite Hfresh. split_and!; [done| |].
        -- unfold WriteHeader. cbn. by rewrite Hfresh.
        -- unfold WriteHeader. cbn. rewrite Hfresh. cbn. unfold Set_.
           by rewrite lookup_insert_eq.
    + intros N201 N202 N204.
      rewrite !decide_False in Hrun by done.
      split; [eexists; exact Hrun|].
      rewrite (serve_error_status _ _ _ _ _ _ Hrun). cbn. by rewrite Hfresh.
  - intros Hnone. rewrite Hnone in Hrun. split; [exact Hrun|].
    rewrite (serve_error_status _ _ _ _ _ _ Hrun). cbn. by rewrite Hfresh.
Qed.

End CreateVerb.

(** Create on the small backend: a 201 echoes the object under
    [/v1/posts/1], a 204 with the object is forwarded, a 418 ends as 500. *)
Lemma handleCreate_statuses_witness :
  (∃ final,
     handleCreate (Toy.creating (Some Toy.thePost) 201) Toy.jsonRequest "/v1/" noInfo
       Toy.start = (Ret tt, final) ∧
     w_status (writer final) = Some 201 ∧
     w_body (writer final) = "document" ∧
     w_header (writer final) !! "Location" = Some ("/v1/posts/1", [])) ∧
  (∃ final,
     handleCreate (Toy.creating (Some Toy.thePost) 204) Toy.jsonRequest "/v1/" noInfo
       Toy.start = (Ret tt, final) ∧
     w_status (writer final) = Some 204 ∧
     w_body (writer final) = "" ∧
     w_header (writer final) !! "Location" = Some ("/v1/posts/1", [])) ∧
  w_status (writer (serve
      (handleCreate (Toy.creating (Some Toy.thePost) 418) Toy.jsonRequest "/v1/" noInfo)
      Toy.jsonRequest (marshalers (Toy.creating (Some Toy.thePost) 418)) Toy.start).2)
    = Some 500.
Proof.
  split_and!.
  - destruct (handleCreate_statuses (Toy.creating (Some Toy.thePost) 201)
                Toy.jsonRequest "/v1/" noInfo Toy.start ∅
                {| Toy.postType := Toy.postStruct; Toy.postID := "new";
                   Toy.commentIDs := [] |}
                (world Toy.start) (world Toy.start)
                (Toy.reply (Some Toy.thePost) 201)
             ) as [Hid _]; [vm_compute; reflexivity ..|].
    destruct (Hid Toy.thePost (λ _, "1") eq_refl eq_refl) as (H201 & _ & _).
    destruct (H201 eq_refl) as [_ Hecho].
    eapply (Hecho _ "document"); vm_compute; reflexivity.
  - destruct (handleCreate_statuses (Toy.creating (Some Toy.thePost) 204)
                Toy.jsonRequest "/v1/" noInfo Toy.start ∅
                {| Toy.postType := Toy.postStruct; Toy.postID := "new";
                   Toy.commentIDs := [] |}
                (world Toy.start) (world Toy.start)
                (Toy.reply (Some Toy.thePost) 204)
             ) as [Hid _]; [vm_compute; reflexivity ..|].
    destruct (Hid Toy.thePost (λ _, "1") eq_refl eq_refl) as (_ & H204 & _).
    exact (H204 (or_intror eq_refl)).
  - destruct (handleCreate_statuses (Toy.creating (Some Toy.thePost) 418)
                Toy.jsonRequest "/v1/" noInfo Toy.start ∅
                {| Toy.postType := Toy.postStruct; Toy.postID := "new";
                   Toy.commentIDs := [] |}
                (world Toy.start) (world Toy.start)
                (Toy.reply (Some Toy.thePost) 418)
             ) as [Hid _]; [vm_compute; reflexivity ..|].
    destruct (Hid Toy.thePost (λ _, "1") eq_refl eq_refl) as (_ & _ & H418).
    apply H418; done.
Defined.

(** A backend that answers Create with 204 and no object: the handler
    fails on the missing identity and the response is a 500. *)
Lemma handleCreate_no_content_without_object :
  handleCreate (Toy.creating None 204) Toy.jsonRequest "/v1/" noInfo Toy.start
    = (Err (errorString "Expected one newly created object by resource posts"),
       Toy.start) ∧
  w_status (writer (serve
      (handleCreate (Toy.creating None 204) Toy.jsonRequest "/v1/" noInfo)
      Toy.jsonRequest (marshalers (Toy.creating None 204)) Toy.start).2)
    = Some 500.
Proof. split; vm_compute; reflexivity. Qed.

(** ** Update *)

Section UpdateVerb.

Context {World Obj : Type} `{env : @Env World Obj}.

Import strconv.

Variables (rs : @resource World Obj) (r : httpRequest) (ps : Params).
Variables (s : @state World) (obj response : @Responder Obj).
Variables (ctx check : gmap string value) (stored updatingObj : Obj).
Variables (w1 w2 w3 : World).

(** The stored object is found, the document names it, and the backend
    answers the Update call. *)
Hypothesis Hfresh : w_status (writer s) = None.
Hypothesis Hfind :
  FindOne (source rs) (ByName ps "id") (buildRequest r) (world s) = (Ret obj, w1).
Hypothesis Hbody :
  unmarshalRequest r (marshalers rs) {| world := w1; writer := writer s |}
    = (Ret ctx, {| world := w1; writer := writer s |}).
Hypothesis Hdata : ctx !! "data" = Some (VObject check).
Hypothesis Hid : is_Some (check !! "id").
Hypothesis Htype : is_Some (check !! "type").
Hypothesis Hstored : Result obj = Some stored.
Hypothesis Hassignable : TypeOf stored = resourceType rs.
Hypothesis Hinto :
  UnmarshalInto ctx (structTypeOf rs) [stored] w1 = (Ret [updatingObj], w2).
Hypothesis Hupdate :
  Update (source rs) updatingObj (buildRequest r) w2 = (Ret response, w3).

Lemma handleUpdate_after_backend :
  handleUpdate rs r ps s =
    (if decide (StatusCode response = 200) then
       match Result response with
       | None =>
           internalResponse ←
             try (FindOne (source rs) (ByName ps "id") (buildRequest r));
           match Result internalResponse with
           | None =>
               throw (errorString
                 ("Expected FindOne to return one object of resource " +:+ name rs))
           | Some _ =>
               respondWith internalResponse {| prefix := ""; baseURL := "" |} 200 r
                 (marshalers rs)
           end
       | Some _ =>
           respondWith response {| prefix := ""; baseURL := "" |} 200 r (marshalers rs)
       end
     else if decide (StatusCode response = 202) then onWriter (WriteHeader 202)
     else if decide (StatusCode response = 204) then onWriter (WriteHeader 204)
     else
       throw (errorString
         ("invalid status code " +:+ FormatInt (StatusCode response)
          +:+ " from resource " +:+ name rs +:+ " for method Update")))
      {| world := w3; writer := writer s |}.
Proof.
  unfold handleUpdate.
  rewrite bind_run, (try_run _ _ _ _ Hfind), bind_run, Hbody, Hdata.
  destruct Hid as [? Hi], Htype as [? Ht].
  rewrite (decide_False (P := check !! "id" = None)) by congruence.
  rewrite (decide_False (P := check !! "type" = None)) by congruence.
  rewrite Hstored, (decide_False (P := TypeOf stored ≠ resourceType rs)) by auto.
  cbn [writer world].
  rewrite bind_run, (try_run _ _ _ w2) by exact Hinto.
  cbn [writer world].
  rewrite bind_run, (try_run _ _ _ w3) by exact Hupdate.
  reflexivity.
Qed.

(** C5.  Update, once the backend has answered.  A 200 without an object
    makes the handler call [FindOne] again: its error is returned as it
    is, a second empty result is the error "Expected FindOne to return one
    object of resource ...", and otherwise the object read again is echoed
    with status 200.  A 200 with an object echoes it; 202 and 204 are
    forwarded; any other status is returned as an error, which the route
    writes as status 500. *)
Theorem handleUpdate_statuses :
  (StatusCode response = 200 → Result response = None →
     ∀ (reread : res (@Responder Obj)) (w4 : World),
       FindOne (source rs) (ByName ps "id") (buildRequest r) w3 = (reread, w4) →
       match reread with
       | Err e =>
           handleUpdate rs r ps s = (Err e, {| world := w4; writer := writer s |})
       | Panic =>
           handleUpdate rs r ps s = (Panic, {| world := w4; writer := writer s |})
       | Ret internalResponse =>
           match Result internalResponse with
           | None =>
               handleUpdate rs r ps s =
                 (Err (errorString
                    ("Expected FindOne to return one object of resource "
                     +:+ name rs)),
                  {| world := w4; writer := writer s |})
           | Some _ =>
               handleUpdate rs r ps s =
                 respondWith internalResponse {| prefix := ""; baseURL := "" |} 200 r
                   (marshalers rs) {| world := w4; writer := writer s |}
               ∧ ∀ data bytes,
                   MarshalWithURLs (Result internalResponse)
                     {| prefix := ""; baseURL := "" |} w4 = Ret data →
                   Marshal (selectContentMarshaler r (marshalers rs)).1
                     (VObject (withMeta (Metadata internalResponse) data))
                     = Ret bytes →
                   ∃ final,
                     handleUpdate rs r ps s = (Ret tt, final) ∧
                     w_status (writer final) = Some 200 ∧
                     w_body (writer final) = w_body (writer s) +:+ bytes
           end
       end) ∧
  (StatusCode response = 200 → is_Some (Result response) →
     handleUpdate rs r ps s =
       respondWith response {| prefix := ""; baseURL := "" |} 200 r (marshalers rs)
         {| world := w3; writer := writer s |}) ∧
  (StatusCode response = 202 ∨ StatusCode response = 204 →
     handleUpdate rs r ps s =
       (Ret tt, {| world := w3;
                   writer := WriteHeader (StatusCode response) (writer s) |})
     ∧ w_status (WriteHeader (StatusCode response) (writer s))
         = Some (StatusCode response)) ∧
  (StatusCode response ≠ 200 → StatusCode response ≠ 202 →
   StatusCode response ≠ 204 →
     handleUpdate rs r ps s =
       (Err (errorString
          ("invalid status code " +:+ FormatInt (StatusCode response)
           +:+ " from resource " +:+ name rs +:+ " for method Update")),
        {| world := w3; writer := writer s |})
     ∧ w_status (writer (serve (handleUpdate rs r ps) r (marshalers rs) s).2)
         = Some 500).
Proof.
  pose proof handleUpdate_after_backend as Hrun. split_and!.
  - intros H200 Hnone reread w4 Hreread.
    rewrite (decide_True _ _ H200), Hnone, bind_run in Hrun.
    rewrite (try_run _ _ _ w4) in Hrun by exact Hreread.
    destruct reread as [internalResponse|e|]; [|exact Hrun..].
    destruct (Result internalResponse) eqn:Hres; [|exact Hrun].
    split; [exact Hrun|].
    intros data bytes Hd Hb. rewrite Hrun.
    erewrite respondWith_ok; [|cbn [world]; rewrite Hres; exact Hd|exact Hb].
    eexists. split; [reflexivity|]. cbn. split.
    + rewrite writeResult_status. by rewrite Hfresh.
    + by rewrite writeResult_body.
  - intros H200 [o Ho]. by rewrite (decide_True _ _ H200), Ho in Hrun.
  - intros Hst. rewrite WriteHeader_status, Hfresh. split; [|done].
    rewrite Hrun. destruct Hst as [Hst|Hst]; rewrite Hst; reflexivity.
  - intros N200 N202 N204. rewrite !decide_False in Hrun by done.
    split; [exact Hrun|].
    rewrite (serve_error_status _ _ _ _ _ _ Hrun). cbn. by rewrite Hfresh.
Qed.

End UpdateVerb.

(** ** Relationship edits *)

Section RelationEdits.

Context {World Obj : Type} `{env : @Env World Obj}.

Lemma collectIDs_ok (newRels : list value) (acc ids : list string) :
  mapM entryID newRels = Some ids → collectIDs newRels acc = Ret (acc ++ ids)%list.
Proof.
  revert acc ids. induction newRels as [|entry rest IH]; intros acc ids; cbn.
  - intros [= <-]. by rewrite app_nil_r.
  - destruct (entryID entry) as [id|] eqn:He; [|done]. cbn.
    destruct (mapM entryID rest) as [ids'|] eqn:Hrest; [|done]. cbn.
    intros [= <-].
    destruct entry as [| | | |?|fields|?]; try done. cbn in He.
    destruct (fields !! "id") as [[| | |id'| | |]|]; try done.
    injection He as ->. rewrite (IH _ ids') by done. by rewrite <- app_assoc.
Qed.

Lemma collectIDs_malformed (newRels : list value) (acc : list string) :
  (∃ entry, entry ∈ newRels ∧ entryID entry = None) →
  ∃ e, collectIDs newRels acc = Err e.
Proof.
  intros (entry & Hin & Hbad). revert acc.
  induction newRels as [|first rest IH]; intros acc; [by apply elem_of_nil in Hin|].
  cbn. destruct first as [| | | |?|fields|?]; try by eexists.
  destruct (fields !! "id") as [[| | |id| | |]|] eqn:Hf; try by eexists.
  apply elem_of_cons in Hin as [->|Hin]; [|by apply IH].
  cbn in Hbad. by rewrite Hf in Hbad.
Qed.

Lemma editObjOf_writer (response : @Responder Obj) (s s' : @state World)
    (out : res (Kind * Obj)) :
  editObjOf response s = (out, s') → writer s' = writer s.
Proof.
  unfold editObjOf. destruct (Result response) as [result|]; [|by intros [= _ <-]].
  case_decide; [|by intros [= _ <-]].
  rewrite bind_run. unfold getPointerToStruct.
  destruct (newPointerTo result (world s)). by intros [= _ <-].
Qed.

Lemma finish_run (rs : @resource World Obj) (r : httpRequest) (resType : Kind)
    (editObj : Obj) (s : @state World) (out : res (@Responder Obj)) (w' : World) :
  out ≠ Panic →
  Update (source rs) (editedValue resType editObj (world s)) (buildRequest r) (world s)
    = (out, w') →
  (err ← updateEdited rs r resType editObj;
   _ ← onWriter (WriteHeader 204);
   returnErr err) s
    = (afterUpdate out, {| world := w'; writer := WriteHeader 204 (writer s) |}).
Proof.
  intros Hout Hupdate. rewrite bind_run. unfold updateEdited, editedValue in *.
  destruct (decide (resType = Struct)).
  - rewrite bind_run. unfold readWorld, errorOf. cbn [world].
    rewrite Hupdate. by destruct out.
  - unfold errorOf. rewrite Hupdate. by destruct out.
Qed.

Lemma answers204_intro (h : M unit) (r : httpRequest)
    (ms : gmap string ContentMarshaler) (s : @state World)
    (out : res (@Responder Obj)) (w' : World) :
  w_status (writer s) = None → out ≠ Panic →
  h s = (afterUpdate out, {| world := w'; writer := WriteHeader 204 (writer s) |}) →
  answers204 h r ms s out w'.
Proof.
  intros Hfresh Hout Hrun. split; [exact Hrun|].
  assert (w_status (WriteHeader 204 (writer s)) = Some 204) as H204
    by (by rewrite WriteHeader_status, Hfresh).
  split; [exact H204|].
  destruct out as [resp|e|]; [|clear Hout|done]; cbn in Hrun.
  - unfold serve. by rewrite Hrun.
  - rewrite (serve_error_status _ _ _ _ _ _ Hrun). cbn. by rewrite H204.
Qed.

End RelationEdits.

Section RelationHandlers.

Context {World Obj : Type} `{env : @Env World Obj}.

Variables (rs : @resource World Obj) (r : httpRequest) (ps : Params).
Variables (relation : Reference) (s : @state World).
Variables (response : @Responder Obj) (inc : gmap string value) (data : value).
Variable w1 : World.

(** The object is found and the request body decodes to a document with a
    [data] member. *)
Hypothesis Hfresh : w_status (writer s) = None.
Hypothesis Hfind :
  FindOne (source rs) (ByName ps "id") (buildRequest r) (world s)
    = (Ret response, w1).
Hypothesis Hbody :
  unmarshalRequest r (marshalers rs) {| world := w1; writer := writer s |}
    = (Ret inc, {| world := w1; writer := writer s |}).
Hypothesis Hdata : inc !! "data" = Some data.

Lemma handleAddToManyRelation_after_parse (newRels : list value) :
  data = VArray newRels →
  handleAddToManyRelation rs r ps relation s =
    (newIDs ← lift (collectIDs newRels []);
     '(resType, editObj) ← editObjOf response;
     match asEditToManyRelations editObj with
     | None => throw needEditToMany
     | Some targetObj =>
         _ ← onWorld (AddToManyIDs targetObj (RefName relation) newIDs);
         err ← updateEdited rs r resType editObj;
         _ ← onWriter (WriteHeader 204);
         returnErr err
     end) {| world := w1; writer := writer s |}.
Proof.
  intros ->. unfold handleAddToManyRelation.
  by rewrite bind_run, (try_run _ _ _ _ Hfind), bind_run, Hbody, Hdata.
Qed.

Lemma handleDeleteToManyRelation_after_parse (newRels : list value) :
  data = VArray newRels →
  handleDeleteToManyRelation rs r ps relation s =
    (obsoleteIDs ← lift (collectIDs newRels []);
     '(resType, editObj) ← editObjOf response;
     match asEditToManyRelations editObj with
     | None => throw needEditToMany
     | Some targetObj =>
         _ ← onWorld (DeleteToManyIDs targetObj (RefName relation) obsoleteIDs);
         err ← updateEdited rs r resType editObj;
         _ ← onWriter (WriteHeader 204);
         returnErr err
     end) {| world := w1; writer := writer s |}.
Proof.
  intros ->. unfold handleDeleteToManyRelation.
  by rewrite bind_run, (try_run _ _ _ _ Hfind), bind_run, Hbody, Hdata.
Qed.

Lemma handleReplaceRelation_after_parse :
  handleReplaceRelation rs r ps relation s =
    ('(resType, editObj) ← editObjOf response;
     _ ← try (UnmarshalRelationshipsData editObj (RefName relation) data);
     err ← updateEdited rs r resType editObj;
     _ ← onWriter (WriteHeader 204);
     returnErr err) {| world := w1; writer := writer s |}.
Proof.
  unfold handleReplaceRelation.
  by rewrite bind_run, (try_run _ _ _ _ Hfind), bind_run, Hbody, Hdata.
Qed.

(** C6.  Adding to and deleting from a to-many relationship, for a [data]
    array.  If some entry is not an object with a string id, both handlers
    return an error and leave the world as [FindOne] left it and the
    response untouched: no id is added or removed and [Update] is not
    called.  If every entry carries an id but the object does not
    implement [EditToManyRelations], they return the capability error.
    Otherwise Add calls [AddToManyIDs], and Delete [DeleteToManyIDs], once
    with the relationship's name and all the ids in the order of the
    array, and hands the object so edited to [Update]. *)
Theorem toMany_edit_all_or_nothing (newRels : list value) :
  data = VArray newRels →
  ((∃ entry, entry ∈ newRels ∧ entryID entry = None) →
     ∃ e,
       handleAddToManyRelation rs r ps relation s
         = (Err e, {| world := w1; writer := writer s |}) ∧
       handleDeleteToManyRelation rs r ps relation s
         = (Err e, {| world := w1; writer := writer s |})) ∧
  (∀ (ids : list string) (resType : Kind) (editObj : Obj) (w2 : World),
     mapM entryID newRels = Some ids →
     editObjOf response {| world := w1; writer := writer s |}
       = (Ret (resType, editObj), {| world := w2; writer := writer s |}) →
     asEditToManyRelations editObj = None →
     handleAddToManyRelation rs r ps relation s
       = (Err needEditToMany, {| world := w2; writer := writer s |}) ∧
     handleDeleteToManyRelation rs r ps relation s
       = (Err needEditToMany, {| world := w2; writer := writer s |})) ∧
  (∀ (ids : list string) (resType : Kind) (editObj : Obj) (w2 : World)
     (targetObj : EditToManyRelations),
     mapM entryID newRels = Some ids →
     editObjOf response {| world := w1; writer := writer s |}
       = (Ret (resType, editObj), {| world := w2; writer := writer s |}) →
     asEditToManyRelations editObj = Some targetObj →
     (∀ out w3,
        out ≠ Panic →
        Update (source rs)
          (editedValue resType editObj
             (AddToManyIDs targetObj (RefName relation) ids w2))
          (buildRequest r)
          (AddToManyIDs targetObj (RefName relation) ids w2) = (out, w3) →
        handleAddToManyRelation rs r ps relation s
          = (afterUpdate out,
             {| world := w3; writer := WriteHeader 204 (writer s) |})) ∧
     (∀ out w3,
        out ≠ Panic →
        Update (source rs)
          (editedValue resType editObj
             (DeleteToManyIDs targetObj (RefName relation) ids w2))
          (buildRequest r)
          (DeleteToManyIDs targetObj (RefName relation) ids w2) = (out, w3) →
        handleDeleteToManyRelation rs r ps relation s
          = (afterUpdate out,
             {| world := w3; writer := WriteHeader 204 (writer s) |}))).
Proof.
  intros Harr.
  pose proof (handleAddToManyRelation_after_parse newRels Harr) as Hadd.
  pose proof (handleDeleteToManyRelation_after_parse newRels Harr) as Hdel.
  split_and!.
  - intros Hbad. destruct (collectIDs_malformed newRels [] Hbad) as [e He].
    exists e. rewrite Hadd, Hdel, !bind_run. unfold lift. by rewrite He.
  - intros ids resType editObj w2 Hids Hedit Hcap.
    apply (collectIDs_ok _ []) in Hids. cbn in Hids.
    rewrite bind_run in Hadd, Hdel. unfold lift in Hadd, Hdel.
    by rewrite Hids, bind_run, Hedit, Hcap in Hadd, Hdel.
  - intros ids resType editObj w2 targetObj Hids Hedit Hcap.
    apply (collectIDs_ok _ []) in Hids. cbn in Hids.
    rewrite bind_run in Hadd, Hdel. unfold lift in Hadd, Hdel.
    rewrite Hids, bind_run, Hedit, Hcap in Hadd, Hdel.
    split; intros out w3 Hout Hupdate.
    + rewrite Hadd, bind_run. unfold onWorld. cbn [world writer].
      by rewrite (finish_run rs r resType editObj
                    {| world := AddToManyIDs targetObj (RefName relation) ids w2;
                       writer := writer s |} out w3 Hout Hupdate).
    + rewrite Hdel, bind_run. unfold onWorld. cbn [world writer].
      by rewrite (finish_run rs r resType editObj
                    {| world := DeleteToManyIDs targetObj (RefName relation) ids w2;
                       writer := writer s |} out w3 Hout Hupdate).
Qed.

(** C9.  Once a relationship replace, add or delete has reached its
    [Update] call, the response carries status 204 whatever that call
    returns: for every [Responder], whatever its status code, the handler
    returns nil after writing 204, and for an error the 204 is already
    written and stays when the route reports the error. *)
Theorem relationship_edits_answer_204 :
  (∀ (resType : Kind) (editObj : Obj) (w2 w3 w4 : World)
     (out : res (@Responder Obj)),
     out ≠ Panic →
     editObjOf response {| world := w1; writer := writer s |}
       = (Ret (resType, editObj), {| world := w2; writer := writer s |}) →
     UnmarshalRelationshipsData editObj (RefName relation) data w2 = (Ret tt, w3) →
     Update (source rs) (editedValue resType editObj w3) (buildRequest r) w3
       = (out, w4) →
     answers204 (handleReplaceRelation rs r ps relation) r (marshalers rs) s out w4) ∧
  (∀ (newRels : list value) (ids : list string) (resType : Kind) (editObj : Obj)
     (targetObj : EditToManyRelations) (w2 w3 : World)
     (out : res (@Responder Obj)),
     out ≠ Panic →
     data = VArray newRels →
     mapM entryID newRels = Some ids →
     editObjOf response {| world := w1; writer := writer s |}
       = (Ret (resType, editObj), {| world := w2; writer := writer s |}) →
     asEditToManyRelations editObj = Some targetObj →
     (Update (source rs)
        (editedValue resType editObj
           (AddToManyIDs targetObj (RefName relation) ids w2))
        (buildRequest r)
        (AddToManyIDs targetObj (RefName relation) ids w2) = (out, w3) →
      answers204 (handleAddToManyRelation rs r ps relation) r (marshalers rs) s
        out w3) ∧
     (Update (source rs)
        (editedValue resType editObj
           (DeleteToManyIDs targetObj (RefName relation) ids w2))
        (buildRequest r)
        (DeleteToManyIDs targetObj (RefName relation) ids w2) = (out, w3) →
      answers204 (handleDeleteToManyRelation rs r ps relation) r (marshalers rs) s
        out w3)).
Proof.
  split.
  - intros resType editObj w2 w3 w4 out Hout Hedit Hrel Hupdate.
    apply answers204_intro; [done..|].
    rewrite handleReplaceRelation_after_parse, bind_run, Hedit, bind_run.
    rewrite (try_run _ _ _ w3) by exact Hrel. cbn [world writer].
    by rewrite (finish_run rs r resType editObj
                  {| world := w3; writer := writer s |} out w4 Hout Hupdate).
  - intros newRels ids resType editObj targetObj w2 w3 out Hout Harr Hids Hedit Hcap.
    apply (collectIDs_ok _ []) in Hids. cbn in Hids.
    split; intros Hupdate; (apply answers204_intro; [done..|]).
    + rewrite (handleAddToManyRelation_after_parse newRels Harr), bind_run.
      unfold lift. rewrite Hids, bind_run, Hedit, Hcap, bind_run.
      unfold onWorld. cbn [world writer].
      by rewrite (finish_run rs r resType editObj
                    {| world := AddToManyIDs targetObj (RefName relation) ids w2;
                       writer := writer s |} out w3 Hout Hupdate).
    + rewrite (handleDeleteToManyRelation_after_parse newRels Harr), bind_run.
      unfold lift. rewrite Hids, bind_run, Hedit, Hcap, bind_run.
      unfold onWorld. cbn [world writer].
      by rewrite (finish_run rs r resType editObj
                    {| world := DeleteToManyIDs targetObj (RefName relation) ids w2;
                       writer := writer s |} out w3 Hout Hupdate).
Qed.

End RelationHandlers.

(** ** The handlers on the small backend *)

Section ToyRuns.

Import Toy.

(** Valid pagination parameters, or a mixed combination, against a backend
    that lists nothing: both requests end as 404. *)
Lemma handleIndex_branches_witness :
  w_status (writer (serve
      (handleIndex (editing Panic ∅) (page "2" "10") noInfo) (page "2" "10")
      (marshalers (editing Panic ∅)) start).2) = Some 404 ∧
  isValid (newPaginationQueryParams
      (indexRequest [("page[number]", "2"); ("page[limit]", "10")])) = false ∧
  w_status (writer (serve
      (handleIndex (editing Panic ∅)
         (indexRequest [("page[number]", "2"); ("page[limit]", "10")]) noInfo)
      (indexRequest [("page[number]", "2"); ("page[limit]", "10")])
      (marshalers (editing Panic ∅)) start).2) = Some 404.
Proof.
  split_and!.
  - destruct (handleIndex_branches (editing Panic ∅) (page "2" "10") noInfo start
                eq_refl) as (_ & Hvalid & _).
    exact (proj2 (Hvalid eq_refl)).
  - destruct (handleIndex_branches (editing Panic ∅)
                (indexRequest [("page[number]", "2"); ("page[limit]", "10")])
                noInfo start eq_refl) as (_ & _ & _ & Hmixed).
    apply Hmixed; done.
  - destruct (handleIndex_branches (editing Panic ∅)
                (indexRequest [("page[number]", "2"); ("page[limit]", "10")])
                noInfo start eq_refl) as (_ & _ & Hplain & _).
    exact (proj2 (Hplain eq_refl)).
Defined.

(** A request with a Content-Type and no Accept header gets the codec
    registered under that very content type. *)
Lemma selectContentMarshaler_order_witness :
  selectContentMarshaler jsonRequest (marshalers (editing Panic patchDoc))
    = (codec patchDoc, "application/json").
Proof.
  destruct (selectContentMarshaler_order (env := env) jsonRequest
              (marshalers (editing Panic patchDoc)) ltac:(reflexivity))
    as (_ & _ & Hct & _).
  exact (Hct eq_refl "application/json" [] eq_refl).
Defined.

(** An Update answered with 200 and no object: the post is read again and
    echoed with status 200. *)
Lemma handleUpdate_statuses_witness :
  ∃ final,
    handleUpdate (editing (Ret (reply None 200)) patchDoc) jsonRequest one start
      = (Ret tt, final) ∧
    w_status (writer final) = Some 200 ∧
    w_body (writer final) = "document".
Proof.
  destruct (handleUpdate_statuses (editing (Ret (reply None 200)) patchDoc)
              jsonRequest one start (reply (Some thePost) 200) (reply None 200)
              patchDoc {[ "id" := VString "1"; "type" := VString "posts" ]}
              thePost thePost (world start) (world start)
              {| cell := []; stored := [thePost] |})
    as (Hreread & _); [first [by eexists | vm_compute; reflexivity] ..|].
  destruct (Hreread eq_refl eq_refl (Ret (reply (Some thePost) 200))
              {| cell := []; stored := [thePost] |} eq_refl) as [_ Hecho].
  eapply (Hecho _ "document"); vm_compute; reflexivity.
Defined.

(** Post 1 holds comment 7.  A linkage array whose second entry has a
    number for id leaves everything as it was; adding 8 and 9 hands the
    backend the ids 7, 8, 9; deleting 7 hands it none. *)
Lemma toMany_edit_all_or_nothing_witness :
  (∃ e,
     handleAddToManyRelation
       (editing (Ret (reply None 204)) (linkage [VString "8"; VNumber "9"]))
       jsonRequest one comments start = (Err e, start) ∧
     handleDeleteToManyRelation
       (editing (Ret (reply None 204)) (linkage [VString "8"; VNumber "9"]))
       jsonRequest one comments start = (Err e, start)) ∧
  handleAddToManyRelation
    (editing (Ret (reply None 204)) (linkage [VString "8"; VString "9"]))
    jsonRequest one comments start
    = (Ret tt, {| world := edited ["7"; "8"; "9"];
                  writer := WriteHeader 204 newResponseWriter |}) ∧
  handleDeleteToManyRelation
    (editing (Ret (reply None 204)) (linkage [VString "7"]))
    jsonRequest one comments start
    = (Ret tt, {| world := edited [];
                  writer := WriteHeader 204 newResponseWriter |}).
Proof.
  split_and!.
  - destruct (toMany_edit_all_or_nothing
                (editing (Ret (reply None 204)) (linkage [VString "8"; VNumber "9"]))
                jsonRequest one comments start (reply (Some thePost) 200)
                (linkage [VString "8"; VNumber "9"])
                (VArray ((λ id, VObject {[ "type" := VString "comments"; "id" := id ]})
                           <$> [VString "8"; VNumber "9"]))
                (world start) eq_refl eq_refl eq_refl _ eq_refl) as (Hbad & _).
    apply Hbad. eexists. split; [apply list_elem_of_further, list_elem_of_here|].
    reflexivity.
  - destruct (toMany_edit_all_or_nothing
                (editing (Ret (reply None 204)) (linkage [VString "8"; VString "9"]))
                jsonRequest one comments start (reply (Some thePost) 200)
                (linkage [VString "8"; VString "9"])
                (VArray ((λ id, VObject {[ "type" := VString "comments"; "id" := id ]})
                           <$> [VString "8"; VString "9"]))
                (world start) eq_refl eq_refl eq_refl _ eq_refl) as (_ & _ & Hgood).
    destruct (Hgood ["8"; "9"] Struct thePointer {| cell := ["7"]; stored := [] |}
                _ eq_refl eq_refl eq_refl) as [Hadd _].
    apply (Hadd (Ret (reply None 204))); [done|reflexivity].
  - destruct (toMany_edit_all_or_nothing
                (editing (Ret (reply None 204)) (linkage [VString "7"]))
                jsonRequest one comments start (reply (Some thePost) 200)
                (linkage [VString "7"])
                (VArray ((λ id, VObject {[ "type" := VString "comments"; "id" := id ]})
                           <$> [VString "7"]))
                (world start) eq_refl eq_refl eq_refl _ eq_refl) as (_ & _ & Hgood).
    destruct (Hgood ["7"] Struct thePointer {| cell := ["7"]; stored := [] |}
                _ eq_refl eq_refl eq_refl) as [_ Hdel].
    apply (Hdel (Ret (reply None 204))); [done|reflexivity].
Defined.

(** Whatever status the backend reports for the Update call, here 500, the
    three relationship edits answer 204. *)
Lemma relationship_edits_answer_204_witness :
  answers204
    (handleReplaceRelation
       (editing (Ret (reply None 500)) (linkage [VString "8"])) jsonRequest one comments)
    jsonRequest (marshalers (editing (Ret (reply None 500)) (linkage [VString "8"])))
    start (Ret (reply None 500)) (edited ["7"]) ∧
  answers204
    (handleAddToManyRelation
       (editing (Ret (reply None 500)) (linkage [VString "8"])) jsonRequest one comments)
    jsonRequest (marshalers (editing (Ret (reply None 500)) (linkage [VString "8"])))
    start (Ret (reply None 500)) (edited ["7"; "8"]) ∧
  answers204
    (handleDeleteToManyRelation
       (editing (Ret (reply None 500)) (linkage [VString "8"])) jsonRequest one comments)
    jsonRequest (marshalers (editing (Ret (reply None 500)) (linkage [VString "8"])))
    start (Ret (reply None 500)) (edited ["7"]).
Proof.
  destruct (relationship_edits_answer_204
              (editing (Ret (reply None 500)) (linkage [VString "8"]))
              jsonRequest one comments start (reply (Some thePost) 200)
              (linkage [VString "8"])
              (VArray ((λ id, VObject {[ "type" := VString "comments"; "id" := id ]})
                         <$> [VString "8"]))
              (world start) eq_refl eq_refl eq_refl eq_refl) as [Hreplace Hedit].
  split_and!.
  - apply (Hreplace Struct thePointer {| cell := ["7"]; stored := [] |}
             {| cell := ["7"]; stored := [] |}); [done|reflexivity..].
  - destruct (Hedit _ ["8"] Struct thePointer _ {| cell := ["7"]; stored := [] |}
                (edited ["7"; "8"]) (Ret (reply None 500))
                ltac:(done) eq_refl eq_refl eq_refl eq_refl) as [Hadd _].
    apply Hadd. reflexivity.
  - destruct (Hedit _ ["8"] Struct thePointer _ {| cell := ["7"]; stored := [] |}
                (edited ["7"]) (Ret (reply None 500))
                ltac:(done) eq_refl eq_refl eq_refl eq_refl) as [_ Hdel].
    apply Hdel. reflexivity.
Defined.

End ToyRuns.

(** ** Relationships are grouped by name *)

Section MarshalProperties.

Variable Pluralize : string → string.

(** C7.  Relationships are keyed by name, never by target type: for
    declared References with distinct names there is exactly one entry per
    name; the entry of a to-many relationship lists the ReferenceIDs that
    bear its name, in source order, and the entry of a to-one relationship
    is a single linkage object.  The node of the test, whose three
    relationships all target [nodes], marshals into the three entries the
    test expects. *)
Theorem marshalRelationships_by_name :
  (∀ (references : list Reference) (referenceIDs : list ReferenceID),
     NoDup (RefName <$> references) →
     size (marshalRelationships Pluralize references referenceIDs)
       = length references ∧
     dom (marshalRelationships Pluralize references referenceIDs)
       = list_to_set (RefName <$> references) ∧
     ∀ reference, reference ∈ references →
       marshalRelationships Pluralize references referenceIDs !! RefName reference
         = Some (VObject {[ "data" :=
             if isToMany Pluralize reference
             then VArray (linkageOf <$>
                    filter (λ referenceID, RIDName referenceID = RefName reference)
                      referenceIDs)
             else from_option linkageOf VNil
                    (head (filter (λ referenceID,
                                     RIDName referenceID = RefName reference)
                             referenceIDs)) ]})) ∧
  (Pluralize "mother-node" ≠ "mother-node" →
   Pluralize "child-nodes" = "child-nodes" →
   Pluralize "abandoned-child-nodes" = "abandoned-child-nodes" →
   marshalRelationships Pluralize (GetReferences theNode) (GetReferencedIDs theNode)
     = expectedRelationships).
Proof.
  split.
  - intros references referenceIDs Hnames.
    assert (((λ reference,
               (RefName reference,
                marshalRelationship Pluralize reference referenceIDs))
             <$> references).*1 = RefName <$> references) as Hkeys
      by (rewrite <- list_fmap_compose; by apply list_fmap_ext).
    assert (dom (marshalRelationships Pluralize references referenceIDs)
              = list_to_set (RefName <$> references)) as Hdom
      by (unfold marshalRelationships; by rewrite dom_list_to_map_L, Hkeys).
    split_and!.
    + rewrite <- size_dom, Hdom, size_list_to_set by done. by rewrite length_fmap.
    + exact Hdom.
    + intros reference Hin.
      assert (marshalRelationships Pluralize references referenceIDs
                !! RefName reference
              = Some (marshalRelationship Pluralize reference referenceIDs)) as ->.
      { apply elem_of_list_to_map_1; [by rewrite Hkeys|].
        by apply (list_elem_of_fmap_2 (λ reference0,
          (RefName reference0,
           marshalRelationship Pluralize reference0 referenceIDs))). }
      unfold marshalRelationship, referenceIDsOf.
      by destruct (isToMany Pluralize reference).
  - intros Hone Hmany Habandoned.
    unfold marshalRelationships, marshalRelationship, isToMany. cbn.
    rewrite (bool_decide_eq_false_2 _ (λ H, Hone (eq_sym H))).
    rewrite !bool_decide_eq_true_2 by done.
    vm_compute. reflexivity.
Qed.

End MarshalProperties.

(** The node of the test, with plurals told by their final s. *)
Lemma marshalRelationships_by_name_witness :
  marshalRelationships endsInS (GetReferences theNode) (GetReferencedIDs theNode)
    = expectedRelationships ∧
  size (marshalRelationships endsInS (GetReferences theNode) (GetReferencedIDs theNode))
    = 3%nat.
Proof.
  destruct (marshalRelationships_by_name endsInS) as [Hgeneral Hnode].
  split.
  - apply Hnode; [by vm_compute | reflexivity..].
  - apply (Hgeneral (GetReferences theNode) (GetReferencedIDs theNode)).
    cbn. repeat constructor; set_solver.
Defined.

(** * Further properties of the dispatcher *)

(** ** When the planner fails *)

Section LinkFailures.

Variable encodeQuery : Values → string.

Import strconv.

(** X1.  [getLinks] returns links only when the parameters it reads parse.
    With a page number set it parses the number, then the size: the first
    that fails gives the error, and a size that parses to zero makes the
    division panic.  Without a page number it parses the offset, then the
    limit, and returns their first error; an empty offset is such an
    error.  In every other case links are returned. *)
Theorem getLinks_outcome (p : paginationQueryParams) (r : httpRequest)
    (count : Z) (info : information) :
  (p_number p ≠ "" →
     (∀ e, ParseUint (p_number p) = Err e →
        getLinks encodeQuery p r count info = Err e) ∧
     (∀ n e, ParseUint (p_number p) = Ret n → ParseUint (p_size p) = Err e →
        getLinks encodeQuery p r count info = Err e) ∧
     (∀ n, ParseUint (p_number p) = Ret n → ParseUint (p_size p) = Ret 0 →
        getLinks encodeQuery p r count info = Panic) ∧
     (∀ n s, ParseUint (p_number p) = Ret n → ParseUint (p_size p) = Ret s →
        s ≠ 0 → ∃ links, getLinks encodeQuery p r count info = Ret links)) ∧
  (p_number p = "" →
     (∀ e, ParseUint (p_offset p) = Err e →
        getLinks encodeQuery p r count info = Err e) ∧
     (∀ o e, ParseUint (p_offset p) = Ret o → ParseUint (p_limit p) = Err e →
        getLinks encodeQuery p r count info = Err e) ∧
     (∀ o l, ParseUint (p_offset p) = Ret o → ParseUint (p_limit p) = Ret l →
        ∃ links, getLinks encodeQuery p r count info = Ret links) ∧
     (p_offset p = "" →
        getLinks encodeQuery p r count info
          = Err (numError "ParseUint" "" false))).
Proof.
  split.
  - intros Hnum. unfold getLinks. rewrite (decide_True _ _ Hnum). split_and!.
    + intros e He. by rewrite He.
    + intros n e Hn He. rewrite Hn. cbn [mbind res_bind].
      case_decide; by rewrite He.
    + intros n Hn Hs. rewrite Hn. cbn [mbind res_bind].
      case_decide; rewrite Hs; cbn [mbind res_bind]; by rewrite decide_True.
    + intros n s Hn Hs Hs0. rewrite Hn. cbn [mbind res_bind].
      case_decide; rewrite Hs; cbn [mbind res_bind];
        rewrite (decide_False (P := s = 0)) by done;
        case_decide; by eexists.
  - intros Hnum. unfold getLinks.
    rewrite (decide_False (P := p_number p ≠ "")) by (by intros []).
    split_and!.
    + intros e He. by rewrite He.
    + intros o e Ho He. rewrite Ho. cbn [mbind res_bind]. by rewrite He.
    + intros o l Ho Hl. rewrite Ho. cbn [mbind res_bind]. rewrite Hl.
      cbn [mbind res_bind]. repeat case_decide; by eexists.
    + intros Hempty. by rewrite Hempty.
Qed.

End LinkFailures.

(** A page number that is no number is an error, a page size of zero a
    panic. *)
Lemma getLinks_outcome_witness :
  getLinks plainEncode (newPaginationQueryParams (page "two" "10")) (page "two" "10")
    25 noInfo = Err (numError "ParseUint" "two" false) ∧
  getLinks plainEncode (newPaginationQueryParams (page "2" "0")) (page "2" "0")
    25 noInfo = Panic.
Proof.
  split.
  - destruct (getLinks_outcome plainEncode (newPaginationQueryParams (page "two" "10"))
                (page "two" "10") 25 noInfo) as [Hnumber _].
    destruct (Hnumber ltac:(done)) as (Hbad & _).
    apply Hbad. reflexivity.
  - destruct (getLinks_outcome plainEncode (newPaginationQueryParams (page "2" "0"))
                (page "2" "0") 25 noInfo) as [Hnumber _].
    destruct (Hnumber ltac:(done)) as (_ & _ & Hzero & _).
    apply (Hzero 2); reflexivity.
Defined.

(** ** Errors on the wire *)

Section ErrorResponses.

Context {World Obj : Type} `{env : @Env World Obj}.

Lemma writeResult_contentType (data : string) (status : Z) (contentType : string)
    (w : ResponseWriter) :
  w_header (writeResult data status contentType w) !! "Content-Type"
    = Some (contentType, []).
Proof.
  unfold writeResult, Write, WriteHeader, HeaderSet. cbn.
  destruct (w_status w); cbn; repeat case_match; cbn;
    unfold Set_; by rewrite lookup_insert_eq.
Qed.

Lemma writeResult_body_fresh (data : string) (status : Z) (contentType : string)
    (w : ResponseWriter) :
  w_status w = None →
  w_body (writeResult data status contentType w)
    = if bodyAllowedForStatus status then w_body w +:+ data else w_body w.
Proof.
  intros Hfresh. unfold writeResult, Write, WriteHeader, HeaderSet. cbn.
  rewrite Hfresh. cbn. by destruct (bodyAllowedForStatus status).
Qed.

(** X2.  On a response not yet started [handleError] always succeeds and
    leaves the world alone: it writes the status an [HTTPError] carries and
    500 for any other error, announces the content type of the selected
    codec, and writes that codec's error document when the status allows a
    body.  [notAllowedHandler] answers every request with status 405 and
    the error document for "Method Not Allowed". *)
Theorem handleError_writes (e : error) (r : httpRequest)
    (ms : gmap string ContentMarshaler) (s : @state World) :
  w_status (writer s) = None →
  (∃ final,
     handleError e r ms s = (Ret tt, final) ∧
     world final = world s ∧
     w_status (writer final) = Some (errorStatus e) ∧
     w_header (writer final) !! "Content-Type"
       = Some ((selectContentMarshaler r ms).2, []) ∧
     w_body (writer final)
       = if bodyAllowedForStatus (errorStatus e)
         then w_body (writer s)
              +:+ MarshalError (selectContentMarshaler r ms).1 e
         else w_body (writer s)) ∧
  (∃ final,
     notAllowedHandler_ServeHTTP ms r s = (Ret tt, final) ∧
     world final = world s ∧
     w_status (writer final) = Some 405 ∧
     w_body (writer final)
       = w_body (writer s)
         +:+ MarshalError (selectContentMarshaler r ms).1
               (httpError None "Method Not Allowed" 405)).
Proof.
  intros Hfresh. split.
  - unfold handleError. destruct (selectContentMarshaler r ms) as [m ct]. cbn [fst snd].
    exists {| world := world s;
              writer := writeResult (MarshalError m e) (errorStatus e) ct (writer s) |}.
    split_and!.
    + by destruct e.
    + done.
    + cbn. by rewrite writeResult_status, Hfresh.
    + apply writeResult_contentType.
    + cbn. by apply writeResult_body_fresh.
  - unfold notAllowedHandler_ServeHTTP, handleError, NewHTTPError.
    destruct (selectContentMarshaler r ms) as [m ct]. cbn [fst snd].
    rewrite bind_run. unfold onWriter. cbn [world writer].
    eexists. split_and!; [reflexivity|done|..]; cbn [writer].
    + rewrite writeResult_status, WriteHeader_status. by rewrite Hfresh.
    + unfold writeResult, Write, WriteHeader, HeaderSet. cbn. by rewrite Hfresh.
Qed.

(** X3.  A response that cannot be marshalled is not started: when
    [respondWith] or [respondWithPagination] returns an error, the world
    and the response writer are as before, so that the route then writes
    the status of that error. *)
Theorem failed_response_is_not_started (obj : @Responder Obj) (info : information)
    (status : Z) (links : gmap string string) (r : httpRequest)
    (ms : gmap string ContentMarshaler) (s s' : @state World) (e : error) :
  w_status (writer s) = None →
  (respondWith obj info status r ms s = (Err e, s') →
     s' = s ∧
     w_status (writer (serve (respondWith obj info status r ms) r ms s).2)
       = Some (errorStatus e)) ∧
  (respondWithPagination obj info status links r ms s = (Err e, s') →
     s' = s ∧
     w_status (writer (serve (respondWithPagination obj info status links r ms)
                         r ms s).2)
       = Some (errorStatus e)).
Proof.
  intros Hfresh.
  assert (∀ resp, marshalResponse resp status r ms s = (Err e, s') → s' = s) as Hm.
  { intros resp. unfold marshalResponse.
    destruct (selectContentMarshaler r ms) as [m ct]. rewrite bind_run. unfold lift.
    destruct (Marshal m resp); [done|by intros [= _ <-]|done]. }
  split; intros Hrun.
  - assert (s' = s) as ->.
    { unfold respondWith in Hrun. rewrite bind_run in Hrun.
      destruct (MarshalWithURLs (Result obj) info (world s)) as [data| |];
        [by eapply Hm|by injection Hrun|done]. }
    split; [done|].
    rewrite (serve_error_status _ _ _ _ _ _ Hrun). by rewrite Hfresh.
  - assert (s' = s) as ->.
    { unfold respondWithPagination in Hrun. rewrite bind_run in Hrun.
      destruct (MarshalWithURLs (Result obj) info (world s)) as [data| |];
        [by eapply Hm|by injection Hrun|done]. }
    split; [done|].
    rewrite (serve_error_status _ _ _ _ _ _ Hrun). by rewrite Hfresh.
Qed.

End ErrorResponses.

(** ** Read, Delete and the paginated Index *)

Section ReadDeleteIndex.

Context {World Obj : Type} `{env : @Env World Obj}.

Import strconv.

Variables (rs : @resource World Obj) (r : httpRequest) (ps : Params).
Variables (info : information) (s : @state World).

Hypothesis Hfresh : w_status (writer s) = None.

(** X4.  Read answers 200 whatever status the backend reports: once
    [FindOne] has returned a response the handler is [respondWith] at status
    200, so that a response that marshals is written with status 200.  An
    error of [FindOne] is returned as it is and the route writes its
    status: the one an [HTTPError] carries, 500 otherwise. *)
Theorem handleRead_answers (out : res (@Responder Obj)) (w1 : World) :
  FindOne (source rs) (ByName ps "id") (buildRequest r) (world s) = (out, w1) →
  match out with
  | Ret response =>
      handleRead rs r ps info s =
        respondWith response info 200 r (marshalers rs)
          {| world := w1; writer := writer s |}
      ∧ ∀ data bytes,
          MarshalWithURLs (Result response) info w1 = Ret data →
          Marshal (selectContentMarshaler r (marshalers rs)).1
            (VObject (withMeta (Metadata response) data)) = Ret bytes →
          ∃ final,
            handleRead rs r ps info s = (Ret tt, final) ∧
            world final = w1 ∧
            w_status (writer final) = Some 200 ∧
            w_body (writer final) = w_body (writer s) +:+ bytes
  | Err e =>
      handleRead rs r ps info s = (Err e, {| world := w1; writer := writer s |}) ∧
      w_status (writer (serve (handleRead rs r ps info) r (marshalers rs) s).2)
        = Some (errorStatus e)
  | Panic =>
      handleRead rs r ps info s = (Panic, {| world := w1; writer := writer s |})
  end.
Proof.
  intros Hfind.
  assert (handleRead rs r ps info s =
            match out with
            | Ret response =>
                respondWith response info 200 r (marshalers rs)
                  {| world := w1; writer := writer s |}
            | Err e => (Err e, {| world := w1; writer := writer s |})
            | Panic => (Panic, {| world := w1; writer := writer s |})
            end) as Hrun.
  { unfold handleRead. rewrite bind_run, (try_run _ _ _ _ Hfind). by destruct out. }
  destruct out as [response|e|]; [|split; [exact Hrun|]|exact Hrun].
  - split; [exact Hrun|]. intros data bytes Hd Hb. rewrite Hrun.
    erewrite respondWith_ok; [|exact Hd|exact Hb].
    eexists. split_and!; [reflexivity|done|..]; cbn.
    + by rewrite writeResult_status, Hfresh.
    + by rewrite writeResult_body.
  - rewrite (serve_error_status _ _ _ _ _ _ Hrun). cbn. by rewrite Hfresh.
Qed.

(** X5.  Delete, once the backend has answered.  A 200 answers with a
    document that holds the response's metadata under [meta] and nothing
    else, the result of the backend being left out; 202 and 204 are
    forwarded without a body; any other status is returned as the error
    "invalid status code ... for method Delete", which the route writes as
    status 500.  An error of the backend is returned as it is. *)
Theorem handleDelete_statuses (out : res (@Responder Obj)) (w1 : World) :
  Delete (source rs) (ByName ps "id") (buildRequest r) (world s) = (out, w1) →
  match out with
  | Ret response =>
      (StatusCode response = 200 →
         ∀ bytes,
           Marshal (selectContentMarshaler r (marshalers rs)).1
             (VObject {[ "meta" := VObject (Metadata response) ]}) = Ret bytes →
           ∃ final,
             handleDelete rs r ps s = (Ret tt, final) ∧
             world final = w1 ∧
             w_status (writer final) = Some 200 ∧
             w_body (writer final) = w_body (writer s) +:+ bytes) ∧
      (StatusCode response = 202 ∨ StatusCode response = 204 →
         ∃ final,
           handleDelete rs r ps s = (Ret tt, final) ∧
           world final = w1 ∧
           w_status (writer final) = Some (StatusCode response) ∧
           w_body (writer final) = w_body (writer s)) ∧
      (StatusCode response ≠ 200 → StatusCode response ≠ 202 →
       StatusCode response ≠ 204 →
         handleDelete rs r ps s =
           (Err (errorString
              ("invalid status code " +:+ FormatInt (StatusCode response)
               +:+ " from resource " +:+ name rs +:+ " for method Delete")),
            {| world := w1; writer := writer s |})
         ∧ w_status (writer (serve (handleDelete rs r ps) r (marshalers rs) s).2)
             = Some 500)
  | Err e =>
      handleDelete rs r ps s = (Err e, {| world := w1; writer := writer s |})
  | Panic =>
      handleDelete rs r ps s = (Panic, {| world := w1; writer := writer s |})
  end.
Proof.
  intros Hdelete. unfold handleDelete.
  destruct out as [response|e|]; [|by rewrite bind_run, (try_run _ _ _ _ Hdelete)..].
  split_and!.
  - intros H200 bytes Hb.
    rewrite bind_run, (try_run _ _ _ _ Hdelete), (decide_True _ _ H200).
    erewrite marshalResponse_ok by exact Hb.
    eexists. split_and!; [reflexivity|done|..]; cbn.
    + by rewrite writeResult_status, Hfresh.
    + by rewrite writeResult_body.
  - intros Hst. rewrite bind_run, (try_run _ _ _ _ Hdelete).
    exists {| world := w1; writer := WriteHeader (StatusCode response) (writer s) |}.
    split_and!.
    + destruct Hst as [Hst|Hst]; rewrite Hst; reflexivity.
    + done.
    + cbn. by rewrite WriteHeader_status, Hfresh.
    + cbn. unfold WriteHeader. by rewrite Hfresh.
  - intros N200 N202 N204.
    assert (handleDelete rs r ps s =
              (Err (errorString
                 ("invalid status code " +:+ FormatInt (StatusCode response)
                  +:+ " from resource " +:+ name rs +:+ " for method Delete")),
               {| world := w1; writer := writer s |})) as Hrun.
    { unfold handleDelete. rewrite bind_run, (try_run _ _ _ _ Hdelete).
      by rewrite !decide_False by done. }
    split; [exact Hrun|].
    rewrite (serve_error_status _ _ _ _ _ _ Hrun). cbn. by rewrite Hfresh.
Qed.

(** X6.  Index with valid pagination parameters asks the backend first and
    plans the links afterwards.  If the planner then returns an error (a
    page number that is no number) the handler returns it with the world as
    the backend left it, and the route writes that error's status; if the
    planner panics (a page size of zero) so does the handler.  Otherwise
    the document handed to the codec carries the planned links under
    [links], and a response that marshals is written with status 200. *)
Theorem handleIndex_paginated
    (paginatedFindAll : Request → @call World (Z * @Responder Obj))
    (count : Z) (response : @Responder Obj) (w1 : World) :
  isValid (newPaginationQueryParams r) = true →
  asPaginatedFindAll (source rs) = Some paginatedFindAll →
  paginatedFindAll (buildRequest r) (world s) = (Ret (count, response), w1) →
  match getLinks encodeQuery (newPaginationQueryParams r) r count info with
  | Err e =>
      handleIndex rs r info s = (Err e, {| world := w1; writer := writer s |}) ∧
      w_status (writer (serve (handleIndex rs r info) r (marshalers rs) s).2)
        = Some (errorStatus e)
  | Panic =>
      handleIndex rs r info s = (Panic, {| world := w1; writer := writer s |})
  | Ret links =>
      ∀ data bytes,
        MarshalWithURLs (Result response) info w1 = Ret data →
        Marshal (selectContentMarshaler r (marshalers rs)).1
          (VObject (withMeta (Metadata response)
                      (<["links" := VStringMap links]> data))) = Ret bytes →
        withMeta (Metadata response) (<["links" := VStringMap links]> data)
          !! "links" = Some (VStringMap links) ∧
        ∃ final,
          handleIndex rs r info s = (Ret tt, final) ∧
          world final = w1 ∧
          w_status (writer final) = Some 200 ∧
          w_body (writer final) = w_body (writer s) +:+ bytes
  end.
Proof.
  intros Hvalid Hcap Hlist.
  assert (handleIndex rs r info s =
            (paginationLinks ←
               lift (getLinks encodeQuery (newPaginationQueryParams r) r count info);
             respondWithPagination response info 200 paginationLinks r (marshalers rs))
              {| world := w1; writer := writer s |}) as Hrun.
  { unfold handleIndex. rewrite Hvalid, Hcap, bind_run.
    by rewrite (try_run _ _ _ _ Hlist). }
  rewrite bind_run in Hrun. unfold lift in Hrun.
  destruct (getLinks encodeQuery (newPaginationQueryParams r) r count info)
    as [links|e|]; [|split; [exact Hrun|]|exact Hrun].
  - intros data bytes Hd Hb. split.
    + unfold withMeta. case_decide; by simplify_map_eq.
    + rewrite Hrun. unfold respondWithPagination. rewrite bind_run. cbn [world].
      rewrite Hd. fold (withMeta (Metadata response)
                          (<["links" := VStringMap links]> data)).
      erewrite marshalResponse_ok by exact Hb.
      eexists. split_and!; [reflexivity|done|..]; cbn.
      * by rewrite writeResult_status, Hfresh.
      * by rewrite writeResult_body.
  - rewrite (serve_error_status _ _ _ _ _ _ Hrun). cbn. by rewrite Hfresh.
Qed.

End ReadDeleteIndex.

(** ** What the write handlers refuse *)

Section Refusals.

Context {World Obj : Type} `{env : @Env World Obj}.

Variables (rs : @resource World Obj) (r : httpRequest) (ps : Params).
Variables (s : @state World).

Hypothesis Hfresh : w_status (writer s) = None.

(** X7.  Update reads the stored object before it looks at the request:
    an error of [FindOne] is returned whatever the body holds.  With the
    object found, a document without [data], with a [data] that is no
    object, or with an object lacking [id] or, failing that, [type], is
    refused with an [HTTPError] of status 403 naming the first thing
    missing; the backend's [Update] is not called, the world being as
    [FindOne] left it, and the route writes status 403. *)
Theorem handleUpdate_refuses (found : res (@Responder Obj)) (w1 : World) :
  FindOne (source rs) (ByName ps "id") (buildRequest r) (world s) = (found, w1) →
  (∀ e, found = Err e →
     handleUpdate rs r ps s = (Err e, {| world := w1; writer := writer s |})) ∧
  (∀ obj ctx,
     found = Ret obj →
     unmarshalRequest r (marshalers rs) {| world := w1; writer := writer s |}
       = (Ret ctx, {| world := w1; writer := writer s |}) →
     ∀ msg,
       match ctx !! "data" with
       | None => msg = "missing mandatory data key."
       | Some (VObject check) =>
           match check !! "id", check !! "type" with
           | None, _ => msg = "missing mandatory id key."
           | Some _, None => msg = "missing mandatory type key."
           | Some _, Some _ => False
           end
       | Some _ => msg = "data must contain an object."
       end →
       handleUpdate rs r ps s
         = (Err (httpError (Some (errorString "Forbidden")) msg 403),
            {| world := w1; writer := writer s |}) ∧
       w_status (writer (serve (handleUpdate rs r ps) r (marshalers rs) s).2)
         = Some 403).
Proof.
  intros Hfind. split.
  - intros e ->. unfold handleUpdate. by rewrite bind_run, (try_run _ _ _ _ Hfind).
  - intros obj ctx -> Hbody msg Hmsg.
    assert (handleUpdate rs r ps s
              = (Err (httpError (Some (errorString "Forbidden")) msg 403),
                 {| world := w1; writer := writer s |})) as Hrun.
    { unfold handleUpdate.
      rewrite bind_run, (try_run _ _ _ _ Hfind), bind_run, Hbody.
      destruct (ctx !! "data") as [[| | | | |check|]|]; try by subst msg.
      destruct (check !! "id") as [i|] eqn:Hi.
      - rewrite (decide_False (P := Some i = None)) by done.
        destruct (check !! "type") as [t|] eqn:Ht; [done|].
        rewrite (decide_True (P := None = None)) by done. by subst msg.
      - rewrite (decide_True (P := None = None)) by done. by subst msg. }
    split; [exact Hrun|].
    rewrite (serve_error_status _ _ _ _ _ _ Hrun). cbn. by rewrite Hfresh.
Qed.

(** X8.  Create calls the backend only for exactly one decoded object.  A
    body that cannot be read, or that the selected codec cannot decode, is
    returned as that error with nothing else done; a document that
    [UnmarshalInto] turns into no object or into several is refused with
    "expected one object in POST", and [Create] is not called. *)
Theorem handleCreate_refuses (prefix : string) (info : information) :
  (∀ e, HTTPBody r = Err e →
     handleCreate rs r prefix info s = (Err e, s)) ∧
  (∀ data e,
     HTTPBody r = Ret data →
     Unmarshal (selectContentMarshaler r (marshalers rs)).1 data = Err e →
     handleCreate rs r prefix info s = (Err e, s)) ∧
  (∀ ctx newObjs w1,
     unmarshalRequest r (marshalers rs) s = (Ret ctx, s) →
     UnmarshalInto ctx (structTypeOf rs) [] (world s) = (Ret newObjs, w1) →
     length newObjs ≠ 1%nat →
     handleCreate rs r prefix info s
       = (Err (errorString "expected one object in POST"),
          {| world := w1; writer := writer s |}) ∧
     w_status (writer (serve (handleCreate rs r prefix info) r (marshalers rs) s).2)
       = Some 500).
Proof.
  split_and!.
  - intros e He. unfold handleCreate, unmarshalRequest.
    rewrite !bind_run. unfold lift. by rewrite He.
  - intros data e Hdata He. unfold handleCreate, unmarshalRequest.
    rewrite !bind_run. unfold lift. rewrite Hdata.
    destruct (selectContentMarshaler r (marshalers rs)) as [m ct].
    cbn in He. by rewrite He.
  - intros ctx newObjs w1 Hbody Hinto Hlen.
    assert (handleCreate rs r prefix info s
              = (Err (errorString "expected one object in POST"),
                 {| world := w1; writer := writer s |})) as Hrun.
    { unfold handleCreate. rewrite bind_run, Hbody, bind_run.
      rewrite (try_run _ _ _ _ Hinto).
      by destruct newObjs as [|? [|? ?]]. }
    split; [exact Hrun|].
    rewrite (serve_error_status _ _ _ _ _ _ Hrun). cbn. by rewrite Hfresh.
Qed.

End Refusals.

(** ** What the relationship handlers refuse *)

Section RelationRefusals.

Context {World Obj : Type} `{env : @Env World Obj}.

(** X9.  [collectIDs] stops at the first linkage entry that carries no
    string id and returns the error of that entry: "entry in data object
    invalid" for an entry that is no object, "no id field found inside
    data object" for an object whose [id] is missing or is no string; what
    follows that entry is not looked at. *)
Theorem collectIDs_first_error (good rest : list value) (bad : value)
    (acc : list string) :
  Forall (λ entry, is_Some (entryID entry)) good →
  entryID bad = None →
  collectIDs (good ++ bad :: rest) acc = Err (entryError bad).
Proof.
  intros Hgood Hbad. revert acc.
  induction Hgood as [|entry good [id Hid] _ IH]; intros acc; cbn.
  - destruct bad as [| | | | |fields|]; try done. cbn in *.
    by destruct (fields !! "id") as [[| | |?| | |]|].
  - destruct entry as [| | | | |fields|]; try done. cbn in Hid.
    destruct (fields !! "id") as [[| | |?| | |]|]; try done; apply IH.
Qed.

Variables (rs : @resource World Obj) (r : httpRequest) (ps : Params).
Variables (relation : Reference) (s : @state World).
Variables (response : @Responder Obj) (inc : gmap string value) (w1 : World).

Hypothesis Hfind :
  FindOne (source rs) (ByName ps "id") (buildRequest r) (world s)
    = (Ret response, w1).
Hypothesis Hbody :
  unmarshalRequest r (marshalers rs) {| world := w1; writer := writer s |}
    = (Ret inc, {| world := w1; writer := writer s |}).

(** X10.  The relationship handlers refuse a request before they touch the
    object: a document without [data] makes the three of them return the
    error [needData], and a [data] that is no array makes add and delete
    return the error [needArray].  The replace
    handler returns an error of [UnmarshalRelationshipsData] as it is.  In
    each case [Update] is not called and no status is written. *)
Theorem relationship_handlers_refuse :
  (inc !! "data" = None →
     handleReplaceRelation rs r ps relation s
       = (Err needData, {| world := w1; writer := writer s |}) ∧
     handleAddToManyRelation rs r ps relation s
       = (Err needData, {| world := w1; writer := writer s |}) ∧
     handleDeleteToManyRelation rs r ps relation s
       = (Err needData, {| world := w1; writer := writer s |})) ∧
  (∀ data, inc !! "data" = Some data → (∀ newRels, data ≠ VArray newRels) →
     handleAddToManyRelation rs r ps relation s
       = (Err needArray, {| world := w1; writer := writer s |}) ∧
     handleDeleteToManyRelation rs r ps relation s
       = (Err needArray, {| world := w1; writer := writer s |})) ∧
  (∀ data resType editObj w2 w3 e,
     inc !! "data" = Some data →
     editObjOf response {| world := w1; writer := writer s |}
       = (Ret (resType, editObj), {| world := w2; writer := writer s |}) →
     UnmarshalRelationshipsData editObj (RefName relation) data w2 = (Err e, w3) →
     handleReplaceRelation rs r ps relation s
       = (Err e, {| world := w3; writer := writer s |})).
Proof.
  split_and!.
  - intros Hnone.
    unfold handleReplaceRelation, handleAddToManyRelation, handleDeleteToManyRelation.
    by rewrite !bind_run, (try_run _ _ _ _ Hfind), !bind_run, Hbody, Hnone.
  - intros data Hdata Hnot.
    unfold handleAddToManyRelation, handleDeleteToManyRelation.
    rewrite !bind_run, (try_run _ _ _ _ Hfind), !bind_run, Hbody, Hdata.
    destruct data; try done. by destruct (Hnot items).
  - intros data resType editObj w2 w3 e Hdata Hedit Hrel.
    unfold handleReplaceRelation.
    rewrite bind_run, (try_run _ _ _ _ Hfind), bind_run, Hbody, Hdata.
    rewrite bind_run, Hedit, bind_run.
    by rewrite (try_run _ {| world := w2; writer := writer s |} _ w3) by exact Hrel.
Qed.

(** X11.  The relationship handlers take the kind of the object from
    [reflect.TypeOf(response.Result())]: when [FindOne] answers without an
    object they panic, replace as soon as the document has a [data]
    member, add and delete once every linkage entry has given its id. *)
Theorem relationship_handlers_need_an_object (data : value) :
  Result response = None →
  inc !! "data" = Some data →
  handleReplaceRelation rs r ps relation s
    = (Panic, {| world := w1; writer := writer s |}) ∧
  (∀ newRels ids,
     data = VArray newRels → mapM entryID newRels = Some ids →
     handleAddToManyRelation rs r ps relation s
       = (Panic, {| world := w1; writer := writer s |}) ∧
     handleDeleteToManyRelation rs r ps relation s
       = (Panic, {| world := w1; writer := writer s |})).
Proof.
  intros Hnil Hdata. split.
  - unfold handleReplaceRelation.
    rewrite bind_run, (try_run _ _ _ _ Hfind), bind_run, Hbody, Hdata.
    rewrite bind_run. unfold editObjOf. by rewrite Hnil.
  - intros newRels ids -> Hids.
    apply (collectIDs_ok _ []) in Hids. cbn in Hids.
    unfold handleAddToManyRelation, handleDeleteToManyRelation.
    rewrite !bind_run, (try_run _ _ _ _ Hfind), !bind_run, Hbody, Hdata.
    rewrite !bind_run. unfold lift. rewrite Hids, !bind_run.
    unfold editObjOf. by rewrite Hnil.
Qed.

End RelationRefusals.

(** ** Linked resources *)

Section LinkedResources.

Context {World Obj : Type} `{env : @Env World Obj}.

Variable errorValue : Error_ → Obj.

Variables (rs : @resource World Obj) (r : httpRequest) (ps : Params).
Variables (linked : Reference) (info : information) (s : @state World).

Lemma append_suffix_ne (base a b : string) : a ≠ b → base +:+ a ≠ base +:+ b.
Proof.
  intros Hne. induction base as [|c base IH]; cbn; [done|].
  intros [= H]. by apply IH.
Qed.

Lemma handleLinkedIn_skip (before rest : list (@resource World Obj)) :
  Forall (λ resource, name resource ≠ RefType linked) before →
  handleLinkedIn errorValue (before ++ rest) rs r ps linked info
    = handleLinkedIn errorValue rest rs r ps linked info.
Proof.
  induction 1 as [|resource before Hne _ IH]; [done|].
  cbn [app handleLinkedIn]. by rewrite decide_False.
Qed.

(** X12.  A relation whose target type no registered resource bears: no
    backend is asked, and [handleLinked] is [respondWith] at status 404 on
    an [Error] titled "Not Found" whose detail names the relation, so
    that a response that marshals is written with status 404.  The
    [Status] of that [Error] is [string(404)], the two bytes of the code
    point 404, not the digits 404. *)
Theorem handleLinked_unregistered (resources : list (@resource World Obj)) :
  w_status (writer s) = None →
  Forall (λ resource, name resource ≠ RefType linked) resources →
  handleLinked errorValue resources rs r ps linked info s =
    respondWith
      {| Metadata := ∅;
         Result := Some (errorValue
           {| ErrID := ""; ErrHref := ""; ErrStatus := stringOfInt 404; ErrCode := "";
              ErrTitle := "Not Found";
              ErrDetail :=
                "No resource handler is registered to handle the linked resource "
                +:+ RefName linked;
              ErrPath := "" |});
         StatusCode := 404 |} info 404 r (marshalers rs) s ∧
  stringOfInt 404 = String (byteOf 198) (String (byteOf 148) "") ∧
  stringOfInt 404 ≠ "404" ∧
  (∀ data bytes,
     MarshalWithURLs
       (Some (errorValue
          {| ErrID := ""; ErrHref := ""; ErrStatus := stringOfInt 404; ErrCode := "";
             ErrTitle := "Not Found";
             ErrDetail :=
               "No resource handler is registered to handle the linked resource "
               +:+ RefName linked;
             ErrPath := "" |})) info (world s) = Ret data →
     Marshal (selectContentMarshaler r (marshalers rs)).1 (VObject data) = Ret bytes →
     ∃ final,
       handleLinked errorValue resources rs r ps linked info s = (Ret tt, final) ∧
       world final = world s ∧
       w_status (writer final) = Some 404 ∧
       w_body (writer final) = w_body (writer s) +:+ bytes).
Proof.
  intros Hfresh Hnone.
  assert (handleLinked errorValue resources rs r ps linked info
            = handleLinkedIn errorValue [] rs r ps linked info) as Hrun.
  { unfold handleLinked. rewrite <- (app_nil_r resources).
    by apply handleLinkedIn_skip. }
  split_and!; [by rewrite Hrun|reflexivity|done|].
  intros data bytes Hd Hb. rewrite Hrun. cbn [handleLinkedIn].
  erewrite respondWith_ok; [|exact Hd|].
  - eexists. split_and!; [reflexivity|done|..]; cbn.
    + by rewrite writeResult_status, Hfresh.
    + by rewrite writeResult_body.
  - cbn [Metadata]. unfold withMeta. rewrite map_size_empty.
    by rewrite decide_False by lia.
Qed.

(** X13.  A relation whose target type is registered: the first resource
    registered under that name is asked, with the request of [buildRequest]
    in which [<name>ID] holds the id of the path and [<name>Name] the name
    of the relation, [<name>] being the name of the resource asked for its
    relation.  These two entries replace whatever the client sent under
    the same keys, and every other parameter is passed on unchanged.  The
    resource found is asked as Index asks: with valid pagination
    parameters it needs [PaginatedFindAll], otherwise [FindAll], and a
    missing capability is a 404 error. *)
Theorem handleLinked_registered (before rest : list (@resource World Obj))
    (target : @resource World Obj) :
  Forall (λ resource, name resource ≠ RefType linked) before →
  name target = RefType linked →
  (QueryParams (linkedRequest rs r (ByName ps "id") linked) !! (name rs +:+ "ID")
     = Some [ByName ps "id"] ∧
   QueryParams (linkedRequest rs r (ByName ps "id") linked) !! (name rs +:+ "Name")
     = Some [RefName linked] ∧
   ∀ key, key ≠ name rs +:+ "ID" → key ≠ name rs +:+ "Name" →
     QueryParams (linkedRequest rs r (ByName ps "id") linked) !! key
       = QueryParams (buildRequest r) !! key) ∧
  (if isValid (newPaginationQueryParams r) then
     match asPaginatedFindAll (source target) with
     | Some paginatedFindAll =>
         handleLinked errorValue (before ++ target :: rest) rs r ps linked info s =
           ('(count, response) ←
              try (paginatedFindAll (linkedRequest rs r (ByName ps "id") linked));
            paginationLinks ←
              lift (getLinks encodeQuery (newPaginationQueryParams r) r count info);
            respondWithPagination response info 200 paginationLinks r
              (marshalers rs)) s
     | None =>
         handleLinked errorValue (before ++ target :: rest) rs r ps linked info s =
           (Err (httpError None
              "Resource does not implement the PaginatedFindAll interface" 404), s)
     end
   else
     match asFindAll (source target) with
     | Some findAll =>
         handleLinked errorValue (before ++ target :: rest) rs r ps linked info s =
           (obj ← try (findAll (linkedRequest rs r (ByName ps "id") linked));
            respondWith obj info 200 r (marshalers rs)) s
     | None =>
         handleLinked errorValue (before ++ target :: rest) rs r ps linked info s =
           (Err (httpError None
              "Resource does not implement the FindAll interface" 404), s)
     end).
Proof.
  intros Hbefore Htarget. split.
  - unfold linkedRequest. cbn [QueryParams]. split_and!.
    + rewrite lookup_insert_ne by (by apply append_suffix_ne).
      by rewrite lookup_insert_eq.
    + by rewrite lookup_insert_eq.
    + intros key Hid Hname. by rewrite !lookup_insert_ne.
  - unfold handleLinked. rewrite (handleLinkedIn_skip before _ Hbefore).
    cbn [handleLinkedIn]. rewrite (decide_True _ _ Htarget).
    destruct (isValid (newPaginationQueryParams r)).
    + by destruct (asPaginatedFindAll (source target)).
    + by destruct (asFindAll (source target)).
Qed.

End LinkedResources.

(** ** The route table *)

Section RouteTable.

Context {World Obj : Type} `{env : @Env World Obj}.

Variables Pluralize Jsonify : string → string.
Variable asEntityNamer : Obj → option string.
Variable asMarshalReferences : Obj → option (list Reference).
Variable reflectNew : rtype → Obj.
Variable accepts : list route → route → bool.

Variables (api : @API World Obj) (prototype : Obj) (crud : @CRUD World Obj).
Variable codecs : gmap string ContentMarshaler.

Lemma append_empty_r (text : string) : text +:+ "" = text.
Proof.
  induction text as [|c text IH]; [done|].
  change (String c (text +:+ "") = String c text). by rewrite IH.
Qed.

Lemma relationRoutes_handler (base : string) (ptrPrototype : Obj)
    (relation declared : Reference) (rt : route) :
  rt ∈ relationRoutes Pluralize base ptrPrototype declared →
  routeHandler_ rt ∈ [runReadRelation relation; runLinked relation;
                      runReplaceRelation relation; runAddToManyRelation relation;
                      runDeleteToManyRelation relation] →
  declared = relation.
Proof.
  unfold relationRoutes. intros Hin Htag.
  apply elem_of_app in Hin as [Hin|Hin].
  - repeat (apply elem_of_cons in Hin as [->|Hin]);
      [..|by apply elem_of_nil in Hin]; cbn in Htag;
      repeat (apply elem_of_cons in Htag as [Htag|Htag]; [congruence|]);
      by apply elem_of_nil in Htag.
  - case_decide; [|by apply elem_of_nil in Hin].
    repeat (apply elem_of_cons in Hin as [->|Hin]);
      [..|by apply elem_of_nil in Hin]; cbn in Htag;
      repeat (apply elem_of_cons in Htag as [Htag|Htag]; [congruence|]);
      by apply elem_of_nil in Htag.
Qed.

Lemma registerAll_outcome (registered new : list route) :
  (registerAll accepts registered new = Ret (registered ++ new)%list
   ∧ ¬ refused accepts registered new)
  ∨ (registerAll accepts registered new = Panic ∧ refused accepts registered new).
Proof.
  revert registered. induction new as [|rt new IH]; intros registered; cbn.
  - left. split; [by rewrite app_nil_r|].
    intros (done & rt & rest & Hsplit & _). by destruct done.
  - destruct (accepts registered rt) eqn:Hrt.
    + destruct (IH (registered ++ [rt])%list) as [[Hrun Hall]|[Hrun Hsome]].
      * left. split; [by rewrite Hrun, <- app_assoc|].
        intros (done & rt' & rest & Hsplit & Hno). destruct done as [|first done].
        -- cbn in Hsplit. injection Hsplit as <- _.
           rewrite app_nil_r in Hno. congruence.
        -- cbn in Hsplit. injection Hsplit as <- ->. apply Hall.
           exists done, rt', rest. split; [done|].
           by rewrite <- app_assoc.
      * right. split; [done|].
        destruct Hsome as (done & rt' & rest & -> & Hno).
        exists (rt :: done), rt', rest. split; [done|].
        by rewrite <- app_assoc in Hno.
    + right. split; [done|]. exists [], rt, new. split; [done|].
      by rewrite app_nil_r.
Qed.

Lemma resourceRoutes_relation (base : string) (ptr : Obj) (relation : Reference)
    (rt : route) :
  routeHandler_ rt ∈ [runReadRelation relation; runLinked relation;
                      runReplaceRelation relation; runAddToManyRelation relation;
                      runDeleteToManyRelation relation] →
  rt ∈ resourceRoutes Pluralize asMarshalReferences base prototype ptr
  ↔ (∃ relations, asMarshalReferences prototype = Some relations
                  ∧ relation ∈ relations)
    ∧ rt ∈ relationRoutes Pluralize base ptr relation.
Proof.
  intros Htag. unfold resourceRoutes. rewrite !elem_of_app. split.
  - intros [Hin|[Hin|Hin]].
    + repeat (apply elem_of_cons in Hin as [->|Hin]);
        [..|by apply elem_of_nil in Hin]; cbn in Htag;
        repeat (apply elem_of_cons in Htag as [Htag|Htag]; [done|]);
        by apply elem_of_nil in Htag.
    + destruct (asMarshalReferences prototype) as [relations|];
        [|by apply elem_of_nil in Hin].
      apply list_elem_of_bind in Hin as (declared & Hin & Hdecl).
      pose proof (relationRoutes_handler _ _ relation _ _ Hin Htag) as ->.
      split; [by eexists|done].
    + repeat (apply elem_of_cons in Hin as [->|Hin]);
        [..|by apply elem_of_nil in Hin]; cbn in Htag;
        repeat (apply elem_of_cons in Htag as [Htag|Htag]; [done|]);
        by apply elem_of_nil in Htag.
  - intros [(relations & -> & Hdecl) Hin]. right. left.
    apply list_elem_of_bind. by exists relation.
Qed.

Lemma resourceRoutes_under_base (base : string) (ptr : Obj) :
  Forall (λ rt, ∃ rest, routePath rt = base +:+ rest)
    (resourceRoutes Pluralize asMarshalReferences base prototype ptr).
Proof.
  unfold resourceRoutes.
  apply Forall_app. split; [|apply Forall_app; split].
  - repeat constructor; cbn; first [by exists ""; rewrite append_empty_r
                                   | by eexists].
  - destruct (asMarshalReferences prototype) as [relations|]; [|constructor].
    apply Forall_forall. intros rt Hin.
    apply list_elem_of_bind in Hin as (declared & Hin & _).
    unfold relationRoutes in Hin. apply elem_of_app in Hin as [Hin|Hin].
    + repeat (apply elem_of_cons in Hin as [->|Hin]);
        [..|by apply elem_of_nil in Hin]; by eexists.
    + case_decide; [|by apply elem_of_nil in Hin].
      repeat (apply elem_of_cons in Hin as [->|Hin]);
        [..|by apply elem_of_nil in Hin]; by eexists.
  - repeat constructor; cbn; first [by exists ""; rewrite append_empty_r
                                   | by eexists].
Qed.

(** X14.  [addResource] panics for a prototype that is neither a struct
    nor a pointer.  For a struct or a pointer it hands the router, one by
    one, the routes of the resource, all under prefix + name: it panics
    exactly when the router refuses one of them, given the routes it holds
    and those handed over before; when none is refused it returns, the
    routes being appended to the router's in that order and the resource to
    the registered ones.  Among the routes handed over, GET
    [/:id/relationships/<relation>], GET [/:id/<relation>] and PATCH
    [/:id/relationships/<relation>] are there for each relation the
    prototype declares and for no other; POST and DELETE on
    [/:id/relationships/<relation>] are there exactly when, besides, the
    pointer to the prototype implements [EditToManyRelations] and the name
    of the relation is its own plural. *)
Theorem addResource_routes :
  (TypeKind (TypeOf prototype) = OtherKind →
   addResource Pluralize Jsonify asEntityNamer asMarshalReferences reflectNew
     accepts api prototype crud codecs = Panic) ∧
  (TypeKind (TypeOf prototype) ≠ OtherKind →
   ∃ rs added,
     Forall (λ rt, ∃ rest, routePath rt = (apiPrefix api +:+ name rs) +:+ rest)
       added ∧
     (addResource Pluralize Jsonify asEntityNamer asMarshalReferences reflectNew
        accepts api prototype crud codecs = Panic
      ↔ refused accepts (router api) added) ∧
     (¬ refused accepts (router api) added →
      ∃ api',
        addResource Pluralize Jsonify asEntityNamer asMarshalReferences reflectNew
          accepts api prototype crud codecs = Ret (api', rs) ∧
        resources api' = (resources api ++ [rs])%list ∧
        router api' = (router api ++ added)%list) ∧
     ∀ relation,
       let declared :=
         ∃ relations,
           asMarshalReferences prototype = Some relations ∧ relation ∈ relations in
       let editable :=
         is_Some (asEditToManyRelations
                    (if decide (TypeKind (TypeOf prototype) = Struct)
                     then reflectNew (TypeOf prototype) else prototype))
         ∧ RefName relation = Pluralize (RefName relation) in
       let at_ (method rest : string) (h : routeHandler) :=
         {| routeMethod := method;
            routePath := (apiPrefix api +:+ name rs) +:+ rest +:+ RefName relation;
            routeHandler_ := h |} in
       (at_ "GET" "/:id/relationships/" (runReadRelation relation) ∈ added
          ↔ declared) ∧
       (at_ "GET" "/:id/" (runLinked relation) ∈ added ↔ declared) ∧
       (at_ "PATCH" "/:id/relationships/" (runReplaceRelation relation) ∈ added
          ↔ declared) ∧
       (at_ "POST" "/:id/relationships/" (runAddToManyRelation relation) ∈ added
          ↔ declared ∧ editable) ∧
       (at_ "DELETE" "/:id/relationships/" (runDeleteToManyRelation relation) ∈ added
          ↔ declared ∧ editable)).
Proof.
  split.
  - intros Hkind. unfold addResource. rewrite Hkind. by rewrite decide_True.
  - intros Hkind. unfold addResource.
    rewrite (decide_False (P := _ ∧ _))
      by (intros [? ?]; by destruct (TypeKind (TypeOf prototype))).
    set (ptr := if decide (TypeKind (TypeOf prototype) = Struct)
                then reflectNew (TypeOf prototype) else prototype).
    set (typeName := if decide (TypeKind (TypeOf prototype) = Struct)
                     then TypeName (TypeOf prototype)
                     else TypeName (TypeElem (TypeOf prototype))).
    assert ((if decide (TypeKind (TypeOf prototype) = Struct)
             then (reflectNew (TypeOf prototype), TypeName (TypeOf prototype))
             else (prototype, TypeName (TypeElem (TypeOf prototype))))
            = (ptr, typeName)) as -> by (subst ptr typeName; by case_decide).
    set (nm := match asEntityNamer prototype with
               | Some entityName => entityName
               | None => Jsonify (Pluralize typeName)
               end).
    set (base := apiPrefix api +:+ nm).
    exists {| resourceType := TypeOf prototype; name := nm; source := crud;
              marshalers := codecs |},
           (resourceRoutes Pluralize asMarshalReferences base prototype ptr).
    cbn [name]. fold base. split_and!.
    + apply resourceRoutes_under_base.
    + destruct (registerAll_outcome (router api)
                  (resourceRoutes Pluralize asMarshalReferences base prototype ptr))
        as [[-> Hall]|[-> Hsome]]; cbn; by split.
    + intros Hall.
      destruct (registerAll_outcome (router api)
                  (resourceRoutes Pluralize asMarshalReferences base prototype ptr))
        as [[-> _]|[_ Hsome]]; [|done].
      cbn. by eexists.
    + intros relation. cbn zeta.
      split_and!; (rewrite (resourceRoutes_relation _ _ relation) by (cbn; set_solver));
        unfold relationRoutes; rewrite elem_of_app.
      * split; [tauto|]. intros Hd. split; [done|]. left. set_solver.
      * split; [tauto|]. intros Hd. split; [done|]. left. set_solver.
      * split; [tauto|]. intros Hd. split; [done|]. left. set_solver.
      * split.
        -- intros [Hd [Hin|Hin]]; [set_solver|].
           case_decide; [done|by apply elem_of_nil in Hin].
        -- intros [Hd He]. split; [done|]. right.
           rewrite decide_True by done. set_solver.
      * split.
        -- intros [Hd [Hin|Hin]]; [set_solver|].
           case_decide; [done|by apply elem_of_nil in Hin].
        -- intros [Hd He]. split; [done|]. right.
           rewrite decide_True by done. set_solver.
Qed.

End RouteTable.

(** ** The further properties on the small backend *)

Section MoreToyRuns.

Import Toy ToyList.

(** A backend error with status 404 is written as 404; any request to the
    handler of unknown methods is answered 405. *)
Lemma handleError_writes_witness :
  (∃ final,
     handleError (httpError None "no such post" 404) jsonRequest
       (marshalers (editing Panic ∅)) start = (Ret tt, final) ∧
     w_status (writer final) = Some 404 ∧
     w_header (writer final) !! "Content-Type" = Some ("application/json", []) ∧
     w_body (writer final) = "errors") ∧
  (∃ final,
     notAllowedHandler_ServeHTTP (marshalers (editing Panic ∅)) jsonRequest start
       = (Ret tt, final) ∧
     w_status (writer final) = Some 405 ∧
     w_body (writer final) = "errors").
Proof.
  destruct (handleError_writes (env := env) (httpError None "no such post" 404)
              jsonRequest (marshalers (editing Panic ∅)) start eq_refl)
    as [(final & Hrun & _ & Hstatus & Htype & Hbody) (final' & Hrun' & _ & Hstatus' & Hbody')].
  split; [exists final|exists final']; split_and!; assumption.
Defined.

(** A codec that cannot encode: nothing is written by the handler and the
    route answers 500. *)
Lemma failed_response_is_not_started_witness :
  respondWith (reply (Some thePost) 200) noInfo 200 jsonRequest
    (marshalers unencodable) start = (Err (errorString "cannot encode"), start) ∧
  w_status (writer (serve
      (respondWith (reply (Some thePost) 200) noInfo 200 jsonRequest
         (marshalers unencodable))
      jsonRequest (marshalers unencodable) start).2) = Some 500.
Proof.
  destruct (failed_response_is_not_started (env := env) (reply (Some thePost) 200)
              noInfo 200 ∅ jsonRequest (marshalers unencodable) start start
              (errorString "cannot encode") eq_refl) as [Hrespond _].
  split; [reflexivity|].
  apply Hrespond. reflexivity.
Defined.

(** A backend that answers FindOne with status 418 is read with status
    200; a backend error with status 404 is written as 404. *)
Lemma handleRead_answers_witness :
  (∃ final,
     handleRead (finding (Ret (reply (Some thePost) 418)) ∅) jsonRequest one noInfo
       start = (Ret tt, final) ∧
     w_status (writer final) = Some 200 ∧
     w_body (writer final) = "document") ∧
  w_status (writer (serve
      (handleRead (finding (Err (httpError None "no such post" 404)) ∅) jsonRequest
         one noInfo)
      jsonRequest (marshalers (finding (Err (httpError None "no such post" 404)) ∅))
      start).2) = Some 404.
Proof.
  split.
  - destruct (handleRead_answers (finding (Ret (reply (Some thePost) 418)) ∅)
                jsonRequest one noInfo start eq_refl
                (Ret (reply (Some thePost) 418)) (world start) eq_refl)
      as [_ Hecho].
    destruct (Hecho _ "document" eq_refl eq_refl) as (final & Hrun & _ & Hst & Hbody).
    exists final. by split_and!.
  - destruct (handleRead_answers
                (finding (Err (httpError None "no such post" 404)) ∅)
                jsonRequest one noInfo start eq_refl
                (Err (httpError None "no such post" 404)) (world start) eq_refl)
      as [_ Hstatus].
    exact Hstatus.
Defined.

(** Delete answered with 200 writes the metadata document; answered with
    201 it ends as 500. *)
Lemma handleDelete_statuses_witness :
  (∃ final,
     handleDelete (deleting (Ret (reply (Some thePost) 200))) jsonRequest one start
       = (Ret tt, final) ∧
     w_status (writer final) = Some 200 ∧
     w_body (writer final) = "document") ∧
  w_status (writer (serve
      (handleDelete (deleting (Ret (reply None 201))) jsonRequest one)
      jsonRequest (marshalers (deleting (Ret (reply None 201)))) start).2)
    = Some 500.
Proof.
  split.
  - destruct (handleDelete_statuses (deleting (Ret (reply (Some thePost) 200)))
                jsonRequest one start eq_refl
                (Ret (reply (Some thePost) 200)) (world start) eq_refl)
      as (H200 & _ & _).
    destruct (H200 eq_refl "document" eq_refl) as (final & Hrun & _ & Hst & Hbody).
    exists final. by split_and!.
  - destruct (handleDelete_statuses (deleting (Ret (reply None 201)))
                jsonRequest one start eq_refl
                (Ret (reply None 201)) (world start) eq_refl)
      as (_ & _ & Hother).
    apply Hother; done.
Defined.

(** Page 2 of size 10 over the listing backend is answered 200; a page
    number that is no number ends as 500, after the backend was asked. *)
Lemma handleIndex_paginated_witness :
  (∃ final,
     handleIndex (listedPosts (Ret (reply None 200))) (page "2" "10") noInfo start
       = (Ret tt, final) ∧
     w_status (writer final) = Some 200) ∧
  w_status (writer (serve
      (handleIndex (listedPosts (Ret (reply None 200))) (page "two" "10") noInfo)
      (page "two" "10") (marshalers (listedPosts (Ret (reply None 200)))) start).2)
    = Some 500.
Proof.
  split.
  - pose proof (handleIndex_paginated (env := env)
                  (listedPosts (Ret (reply None 200))) (page "2" "10") noInfo start
                  eq_refl _ 25 (reply None 200) (world start)
                  eq_refl eq_refl eq_refl) as Hpage.
    destruct (getLinks encodeQuery (newPaginationQueryParams (page "2" "10"))
                (page "2" "10") 25 noInfo) as [links| |] eqn:Hlinks;
      [|by vm_compute in Hlinks..].
    destruct (Hpage _ "document" eq_refl eq_refl)
      as (_ & final & Hrun & _ & Hst & _).
    exists final. by split.
  - pose proof (handleIndex_paginated (env := env)
                  (listedPosts (Ret (reply None 200))) (page "two" "10") noInfo start
                  eq_refl _ 25 (reply None 200) (world start)
                  eq_refl eq_refl eq_refl) as Hpage.
    destruct (getLinks encodeQuery (newPaginationQueryParams (page "two" "10"))
                (page "two" "10") 25 noInfo) as [links|e|] eqn:Hlinks;
      [by vm_compute in Hlinks| |by vm_compute in Hlinks].
    destruct Hpage as [_ Hstatus]. rewrite Hstatus.
    vm_compute in Hlinks. by injection Hlinks as <-.
Defined.

(** A document whose [data] has an id and no type is refused with 403. *)
Lemma handleUpdate_refuses_witness :
  handleUpdate (editing (Ret (reply None 200))
                  {[ "data" := VObject {[ "id" := VString "1" ]} ]})
    jsonRequest one start
    = (Err (httpError (Some (errorString "Forbidden"))
              "missing mandatory type key." 403), start) ∧
  w_status (writer (serve
      (handleUpdate (editing (Ret (reply None 200))
                       {[ "data" := VObject {[ "id" := VString "1" ]} ]})
         jsonRequest one)
      jsonRequest
      (marshalers (editing (Ret (reply None 200))
                     {[ "data" := VObject {[ "id" := VString "1" ]} ]}))
      start).2) = Some 403.
Proof.
  destruct (handleUpdate_refuses (env := env)
              (editing (Ret (reply None 200))
                 {[ "data" := VObject {[ "id" := VString "1" ]} ]})
              jsonRequest one start eq_refl
              (Ret (reply (Some thePost) 200)) (world start) eq_refl)
    as [_ Hrefuse].
  apply (Hrefuse (reply (Some thePost) 200)
           {[ "data" := VObject {[ "id" := VString "1" ]} ]} eq_refl eq_refl).
  reflexivity.
Defined.

(** With an [UnmarshalInto] that makes no object, Create is refused. *)
Lemma handleCreate_refuses_witness :
  handleCreate (env := fillOnly) (creating (Some thePost) 201) jsonRequest "/v1/"
    noInfo start = (Err (errorString "expected one object in POST"), start) ∧
  w_status (writer (serve (env := fillOnly)
      (handleCreate (env := fillOnly) (creating (Some thePost) 201) jsonRequest
         "/v1/" noInfo)
      jsonRequest (marshalers (creating (Some thePost) 201)) start).2) = Some 500.
Proof.
  destruct (handleCreate_refuses (env := fillOnly) (creating (Some thePost) 201)
              jsonRequest start eq_refl "/v1/" noInfo) as (_ & _ & Hcount).
  apply (Hcount ∅ [] (world start)); [reflexivity..|done].
Defined.

(** The second of three entries has a number for id: its error is the one
    returned. *)
Lemma collectIDs_first_error_witness :
  collectIDs [VObject {[ "id" := VString "8" ]};
              VObject {[ "id" := VNumber "9" ]};
              VString "10"] []
    = Err (errorString "no id field found inside data object").
Proof.
  apply (collectIDs_first_error [VObject {[ "id" := VString "8" ]}] [VString "10"]
           (VObject {[ "id" := VNumber "9" ]}) []).
  - repeat constructor. by eexists.
  - reflexivity.
Defined.

(** A document whose [data] is an object, not an array, is refused by add
    and delete, and the world and the response stay as they were. *)
Lemma relationship_handlers_refuse_witness :
  handleAddToManyRelation (editing (Ret (reply None 204)) patchDoc) jsonRequest one
    comments start = (Err needArray, start) ∧
  handleDeleteToManyRelation (editing (Ret (reply None 204)) patchDoc) jsonRequest one
    comments start = (Err needArray, start).
Proof.
  destruct (relationship_handlers_refuse (env := env)
              (editing (Ret (reply None 204)) patchDoc) jsonRequest one comments
              start (reply (Some thePost) 200) patchDoc (world start)
              eq_refl eq_refl) as (_ & Harray & _).
  apply (Harray (VObject {[ "id" := VString "1"; "type" := VString "posts" ]}));
    done.
Defined.

(** A backend that finds no object makes the relationship handlers panic. *)
Lemma relationship_handlers_need_an_object_witness :
  handleReplaceRelation (finding (Ret (reply None 200)) (linkage [VString "8"]))
    jsonRequest one comments start = (Panic, start) ∧
  handleAddToManyRelation (finding (Ret (reply None 200)) (linkage [VString "8"]))
    jsonRequest one comments start = (Panic, start).
Proof.
  destruct (relationship_handlers_need_an_object (env := env)
              (finding (Ret (reply None 200)) (linkage [VString "8"]))
              jsonRequest one comments start (reply None 200)
              (linkage [VString "8"]) (world start) eq_refl eq_refl
              (VArray ((λ id, VObject {[ "type" := VString "comments"; "id" := id ]})
                         <$> [VString "8"]))
              eq_refl eq_refl) as [Hreplace Hedit].
  split; [exact Hreplace|].
  destruct (Hedit _ ["8"] eq_refl eq_refl) as [Hadd _]. exact Hadd.
Defined.

(** No resource is registered for the comments of a post: the answer is
    404. *)
Lemma handleLinked_unregistered_witness :
  ∃ final,
    handleLinked errorValue [listedPosts (Ret (reply None 200))]
      (listedPosts (Ret (reply None 200))) (linkedQuery []) one comments noInfo start
      = (Ret tt, final) ∧
    world final = world start ∧
    w_status (writer final) = Some 404.
Proof.
  destruct (handleLinked_unregistered (env := env) errorValue
              (listedPosts (Ret (reply None 200))) (linkedQuery []) one comments
              noInfo start [listedPosts (Ret (reply None 200))] eq_refl)
    as (_ & _ & _ & Hanswer).
  { repeat constructor. done. }
  destruct (Hanswer _ "document" eq_refl eq_refl)
    as (final & Hrun & Hworld & Hstatus & _).
  exists final. by split_and!.
Defined.

(** The comments of post 1, with a client that sends its own [postsID]: the
    comments backend is given the id of the path. *)
Lemma handleLinked_registered_witness :
  ∃ final,
    handleLinked errorValue
      [listedPosts (Ret (reply None 200)); commentsResource (Ret (reply None 200))]
      (listedPosts (Ret (reply None 200))) (linkedQuery [("postsID", "2")]) one
      comments noInfo start = (Ret tt, final) ∧
    cell (world final) = ["1"] ∧
    w_status (writer final) = Some 200.
Proof.
  destruct (handleLinked_registered (env := env) errorValue
              (listedPosts (Ret (reply None 200))) (linkedQuery [("postsID", "2")])
              one comments noInfo start
              [listedPosts (Ret (reply None 200))] []
              (commentsResource (Ret (reply None 200))))
    as [_ Hask]; [by repeat constructor|reflexivity|].
  change (isValid (newPaginationQueryParams (linkedQuery [("postsID", "2")])))
    with false in Hask.
  cbn [commentsResource source listing asFindAll] in Hask.
  eexists. split; [etransitivity; [exact Hask|]; vm_compute; reflexivity|].
  split; vm_compute; reflexivity.
Defined.

End MoreToyRuns.

(** Registering [Post], whose pointer has the to-many edits, with a router
    that refuses a path twice: the relation [comments] gets a POST route,
    the relation [author] does not, and a second registration panics. *)
Lemma addResource_routes_witness :
  ∃ api' rs,
    addResource endsInS id (λ _, None) ToyList.declared
      (λ t, {| Toy.postType := TPtr t; Toy.postID := ""; Toy.commentIDs := [] |})
      ToyList.takes
      {| router := []; resources := []; apiPrefix := "/v1/" |}
      Toy.thePost (Toy.backend Panic Panic Panic) ∅ = Ret (api', rs) ∧
    name rs = "Posts" ∧
    {| routeMethod := "POST"; routePath := "/v1/Posts/:id/relationships/comments";
       routeHandler_ := runAddToManyRelation Toy.comments |} ∈ router api' ∧
    ({| routeMethod := "POST"; routePath := "/v1/Posts/:id/relationships/author";
        routeHandler_ :=
          runAddToManyRelation {| RefType := "users"; RefName := "author" |} |}
       ∉ router api') ∧
    addResource endsInS id (λ _, None) ToyList.declared
      (λ t, {| Toy.postType := TPtr t; Toy.postID := ""; Toy.commentIDs := [] |})
      ToyList.takes api' Toy.thePost (Toy.backend Panic Panic Panic) ∅ = Panic.
Proof.
  destruct (addResource_routes (env := Toy.env) endsInS id (λ _, None)
              ToyList.declared
              (λ t, {| Toy.postType := TPtr t; Toy.postID := ""; Toy.commentIDs := [] |})
              ToyList.takes
              {| router := []; resources := []; apiPrefix := "/v1/" |}
              Toy.thePost (Toy.backend Panic Panic Panic) ∅) as [_ Hroutes].
  destruct (Hroutes ltac:(done)) as (rs & added & _ & Hpanic & Hrun & Hrel).
  destruct Hrun as (api' & Hrun & _ & Hrouter).
  { intros Hno. apply Hpanic in Hno. by vm_compute in Hno. }
  exists api', rs. split; [exact Hrun|].
  assert (name rs = "Posts") as Hname by (vm_compute in Hrun; by injection Hrun as <- <-).
  split; [exact Hname|].
  rewrite Hrouter. cbn [router app]. split_and!.
  - destruct (Hrel Toy.comments) as (_ & _ & _ & Hpost & _).
    cbn zeta in Hpost. rewrite Hname in Hpost. apply Hpost.
    split; [eexists; split; [reflexivity|set_solver]|].
    split; [by eexists|reflexivity].
  - destruct (Hrel {| RefType := "users"; RefName := "author" |})
      as (_ & _ & _ & Hpost & _).
    cbn zeta in Hpost. rewrite Hname in Hpost. intros Hin.
    apply Hpost in Hin as (_ & _ & Hplural). done.
  - vm_compute in Hrun. injection Hrun as <- _. vm_compute. reflexivity.
Defined.

(** ** An empty collection, and an Update without a stored object *)

Section EmptyCollection.

Variable encodeQuery : Values → string.

Import strconv.

(** X15.  Over an empty collection (count 0) strategy A computes zero
    pages, which no page number from 1 on equals: for every page number
    [n ≥ 1] that parses and every size [s ≥ 1] the links [next] and [last]
    are emitted, [last] to page 0 and [next] to page n+1 as 64 bits hold
    it, that is to page [(n+1) mod 2^64], page 0 after the largest page
    number.  Strategy B emits neither [next] nor [last] there. *)
Theorem getLinks_empty_collection (p : paginationQueryParams) (r : httpRequest)
    (info : information) :
  (∀ n s,
     p_number p ≠ "" →
     ParseUint (p_number p) = Ret n → ParseUint (p_size p) = Ret s →
     1 ≤ n → 1 ≤ s →
     ∃ links : gmap string string,
       getLinks encodeQuery p r 0 info = Ret links ∧
       links !! "next"
         = Some (pageLink encodeQuery info r "page[number]"
                   (FormatUint ((n + 1) mod 2 ^ 64))) ∧
       links !! "last" = Some (pageLink encodeQuery info r "page[number]" "0")) ∧
  (∀ o l,
     p_number p = "" →
     ParseUint (p_offset p) = Ret o → ParseUint (p_limit p) = Ret l →
     ∃ links : gmap string string,
       getLinks encodeQuery p r 0 info = Ret links ∧
       links !! "next" = None ∧ links !! "last" = None).
Proof.
  split.
  - intros n s Hnum Hn Hs Hnr Hsr.
    unfold getLinks. rewrite baseURL_prefix, (decide_True _ _ Hnum), Hn.
    cbn [mbind res_bind].
    change (wrap64 (n + 1)) with ((n + 1) mod 2 ^ 64).
    assert (wrap64 0 = 0) as -> by done.
    destruct (decide (p_number p ≠ "1")); rewrite Hs; cbn [mbind res_bind];
      rewrite (decide_False (P := s = 0)) by lia;
      rewrite Z.mod_0_l, Z.div_0_l by lia;
      rewrite (decide_False (P := 0 ≠ 0)) by lia;
      rewrite (decide_True (P := n ≠ 0)) by lia;
      (eexists; split; [reflexivity|]);
      rewrite ?Set_Set; unfold pageLink; split; by simplify_map_eq.
  - intros o l Hnum Ho Hl.
    pose proof (ParseUint_range _ _ Ho). pose proof (ParseUint_range _ _ Hl).
    unfold getLinks.
    rewrite (decide_False (P := p_number p ≠ "")) by (by intros []).
    rewrite Ho, Hl. cbn [mbind res_bind].
    assert (wrap64 0 = 0) as -> by done.
    assert (¬ wrap64 (o + l) < 0) as Hsum
      by (unfold wrap64; pose proof (Z.mod_pos_bound (o + l) (2 ^ 64)); lia).
    destruct (decide (p_offset p ≠ "0"));
      rewrite (decide_False _ _ Hsum);
      (eexists; split; [reflexivity|]); split; by simplify_map_eq.
Qed.

End EmptyCollection.

(** Page 1 of an empty collection links to page 2 and to page 0; the
    largest page number links to page 0 twice. *)
Lemma getLinks_empty_collection_witness :
  (∃ links : gmap string string,
     getLinks plainEncode (newPaginationQueryParams (page "1" "10")) (page "1" "10")
       0 noInfo = Ret links ∧
     links !! "next" = numberLink (page "1" "10") "2" ∧
     links !! "last" = numberLink (page "1" "10") "0") ∧
  (∃ links : gmap string string,
     getLinks plainEncode
       (newPaginationQueryParams (page "18446744073709551615" "10"))
       (page "18446744073709551615" "10") 0 noInfo = Ret links ∧
     links !! "next" = numberLink (page "18446744073709551615" "10") "0" ∧
     links !! "last" = numberLink (page "18446744073709551615" "10") "0").
Proof.
  split.
  - destruct (getLinks_empty_collection plainEncode
                (newPaginationQueryParams (page "1" "10")) (page "1" "10") noInfo)
      as [Hnumber _].
    destruct (Hnumber 1 10) as (links & Hrun & Hnext & Hlast);
      [first [done | reflexivity | lia] ..|].
    exists links. split_and!; [exact Hrun|exact Hnext|exact Hlast].
  - destruct (getLinks_empty_collection plainEncode
                (newPaginationQueryParams (page "18446744073709551615" "10"))
                (page "18446744073709551615" "10") noInfo)
      as [Hnumber _].
    destruct (Hnumber 18446744073709551615 10) as (links & Hrun & Hnext & Hlast);
      [first [done | reflexivity | lia] ..|].
    exists links. split_and!; [exact Hrun|exact Hnext|exact Hlast].
Defined.

Section UpdateWithoutObject.

Context {World Obj : Type} `{env : @Env World Obj}.

(** X16.  Update copies the stored object into the slice it unmarshals
    into: when [FindOne] answers without an object and the document is
    well formed, the handler panics before [UnmarshalInto] and [Update] are
    called. *)
Theorem handleUpdate_needs_stored_object (rs : @resource World Obj)
    (r : httpRequest) (ps : Params) (s : @state World) (obj : @Responder Obj)
    (ctx check : gmap string value) (w1 : World) :
  FindOne (source rs) (ByName ps "id") (buildRequest r) (world s) = (Ret obj, w1) →
  unmarshalRequest r (marshalers rs) {| world := w1; writer := writer s |}
    = (Ret ctx, {| world := w1; writer := writer s |}) →
  ctx !! "data" = Some (VObject check) →
  is_Some (check !! "id") → is_Some (check !! "type") →
  Result obj = None →
  handleUpdate rs r ps s = (Panic, {| world := w1; writer := writer s |}).
Proof.
  intros Hfind Hbody Hdata [i Hi] [t Ht] Hnil. unfold handleUpdate.
  rewrite bind_run, (try_run _ _ _ _ Hfind), bind_run, Hbody, Hdata, Hi, Ht.
  rewrite (decide_False (P := Some i = None)) by done.
  rewrite (decide_False (P := Some t = None)) by done.
  by rewrite Hnil.
Qed.

End UpdateWithoutObject.

(** A backend that finds no object makes Update panic. *)
Lemma handleUpdate_needs_stored_object_witness :
  handleUpdate (ToyList.finding (Ret (Toy.reply None 200)) Toy.patchDoc)
    Toy.jsonRequest Toy.one Toy.start = (Panic, Toy.start).
Proof.
  apply (handleUpdate_needs_stored_object (env := Toy.env)
           (ToyList.finding (Ret (Toy.reply None 200)) Toy.patchDoc)
           Toy.jsonRequest Toy.one Toy.start (Toy.reply None 200) Toy.patchDoc
           {[ "id" := VString "1"; "type" := VString "posts" ]}
           (world Toy.start));
    first [reflexivity | by eexists].
Defined.
